(** * Quilt designer (quilt.ts): pattern model, orientation mapper,
      session state, snapshot load/save and raster export.

    The development follows quilt.ts function by function.  JavaScript
    numbers that hold indices, grid sizes and rotations are embedded as [Z]
    (the values the program manipulates there are integers); a NaN result
    of a division by zero is [None].  The global variables of the script
    are the fields of [State]; the browser supplies the viewport
    ([Window]), the sequence of [Math.random()] results ([Tape]) and the
    clock. *)

From Stdlib Require Import ZArith QArith Qround Qabs Lia.
From stdpp Require Import base list list_numbers strings pretty.

Open Scope Z_scope.

(** ** JavaScript arithmetic on integer-valued numbers *)

Module JS.

(** [Math.floor(a / b)]: the quotient is infinite or NaN when [b] is 0. *)
Definition floor_div (a b : Z) : option Z :=
  if b =? 0 then None else Some (a / b).

(** [a % b]: the remainder takes the sign of the dividend; NaN when [b]
    is 0. *)
Definition rem (a b : Z) : option Z :=
  if b =? 0 then None else Some (Z.rem a b).

(** [arr[i]] for a number [i]: [undefined] outside [0 .. length-1]. *)
Definition index {A} (arr : list A) (i : Z) : option A :=
  if 0 <=? i then arr !! Z.to_nat i else None.

(** [Math.floor(r * n)] for a real [r] and an integer [n]. *)
Definition floor_scale (r : Q) (n : Z) : Z := Qfloor (r * inject_Z n).

End JS.

(** ** Types *)

Inductive PatternType : Type :=
  | solid | horizontal | vertical | diagonal | checkerboard
  | quartersquare | ninepatch | pinwheel | flyinggeese.

#[global] Instance PatternType_eq_dec : EqDecision PatternType.
Proof. solve_decision. Defined.

(** [interface Pattern]; [rotation] is optional. *)
Record Pattern : Type := mkPattern {
  type : PatternType;
  colors : list string;
  rotation : option Z
}.

#[global] Instance Pattern_eq_dec : EqDecision Pattern.
Proof. solve_decision. Defined.

Module GridConfig.
Record t : Type := mk { rows : Z; cols : Z }.
#[global] Instance eq_dec : EqDecision t.
Proof. solve_decision. Defined.
End GridConfig.
Abbreviation GridConfig := GridConfig.t.

(** [interface QuiltData] as [loadQuilt] sees a parsed file: each of the
    three restored fields may be missing. *)
Record QuiltData : Type := mkQuiltData {
  qd_patterns : option (list Pattern);
  qd_library : option (list Pattern);
  qd_gridConfig : option GridConfig;
  savedAt : string
}.

(** ** State *)

(** The script's global variables that carry the session ([squareSize] and
    the drag and tap trackers only feed the DOM and are left out). *)
Record State : Type := mkState {
  rows : Z;
  cols : Z;
  patterns : list Pattern;
  library : list Pattern;
  gridConfig : GridConfig
}.

(** The state the script starts from, before its first statements run. *)
Definition initial_state : State :=
  {| rows := 8; cols := 6; patterns := []; library := [];
     gridConfig := GridConfig.mk 6 8 |}.

Record Window : Type := mkWindow { innerWidth : Z; innerHeight : Z }.

(** [window.innerHeight > window.innerWidth] *)
Definition isPortrait (w : Window) : bool := innerWidth w <? innerHeight w.

(** ** Orientation mapper *)

(** [landscapeToPortrait(landscapeIndex)], reading the global
    [gridConfig]. *)
Definition landscapeToPortrait (gc : GridConfig) (landscapeIndex : Z)
  : option Z :=
  let landscapeCols := GridConfig.rows gc in
  let landscapeRows := GridConfig.cols gc in
  row ← JS.floor_div landscapeIndex landscapeCols;
  col ← JS.rem landscapeIndex landscapeCols;
  let portraitRow := col in
  let portraitCol := landscapeRows - 1 - row in
  Some (portraitRow * GridConfig.cols gc + portraitCol).

(** The rotation index transform in the specification's words: with mathematical
    floor division and modulus. *)
Definition rotation_transform (dRows dCols logicalCols i : Z) : Z :=
  let row := i / dCols in
  let col := i mod dCols in
  let logicalRow := col in
  let logicalCol := dRows - 1 - row in
  logicalRow * logicalCols + logicalCol.

(** The inverse rotation (portrait index back to landscape index); the
    script has no such function, it is the inverse that the round-trip
    property speaks of. *)
Definition portraitToLandscape (gc : GridConfig) (portraitIndex : Z)
  : option Z :=
  portraitRow ← JS.floor_div portraitIndex (GridConfig.cols gc);
  portraitCol ← JS.rem portraitIndex (GridConfig.cols gc);
  let row := GridConfig.cols gc - 1 - portraitCol in
  let col := portraitRow in
  Some (row * GridConfig.rows gc + col).

(** [updateOrientation()] *)
Definition updateOrientation (w : Window) (st : State) : State :=
  let configIsWiderThanTall :=
    GridConfig.rows (gridConfig st) <? GridConfig.cols (gridConfig st) in
  if (isPortrait w && configIsWiderThanTall)
     || (negb (isPortrait w) && negb configIsWiderThanTall)
  then {| rows := GridConfig.cols (gridConfig st);
          cols := GridConfig.rows (gridConfig st);
          patterns := patterns st; library := library st;
          gridConfig := gridConfig st |}
  else {| rows := GridConfig.rows (gridConfig st);
          cols := GridConfig.cols (gridConfig st);
          patterns := patterns st; library := library st;
          gridConfig := gridConfig st |}.

(** ** Style renderer *)

(** A colour is referred to by the slot of [pattern.colors] it is read
    from: [Some j] stands for the expression [pattern.colors[j]], [None]
    for an index that is NaN.  (The SVG branches escape the hash sign of
    the colour for the data URL; the slot is the same.) *)
Abbreviation Fill := (option Z).

Inductive Direction : Type := to_bottom | to_right | deg (angle : Z).

(** Children of the inline [<svg viewBox='0 0 100 100'>]. *)
Inductive SvgElement : Type :=
  | svg_rect (x y width height : Q) (fill : Fill)
  | svg_polygon (points : list (Q * Q)) (fill : Fill).

(** The CSS value that [getPatternStyle] returns, as a syntax tree: a
    colour, [linear-gradient(direction, colour position%, ...)], or
    [url("data:image/svg+xml,<svg ...>...</svg>")]. *)
Inductive Style : Type :=
  | css_color (c : Fill)
  | linear_gradient (direction : Direction) (gradientStops : list (Fill * Q))
  | svg_image (elements : list SvgElement).

(** The loop that builds [gradientStops], shared by the three stripe
    branches. *)
Definition gradientStops (stripe : Q) : list (Fill * Q) :=
  i ← seqZ 0 5;
  let start := (inject_Z i * stripe)%Q in
  let end_ := (inject_Z (i + 1) * stripe)%Q in
  [(Some i, start); (Some i, end_)].

(** [pattern.colors[j].replace(...)] throws a TypeError when the slot is
    [undefined]. *)
Definition escaped (p : Pattern) (j : Z) : option Fill :=
  _ ← JS.index (colors p) j; Some (Some j).

(** [getPatternStyle(pattern)]; [None] is the TypeError of a [replace] on
    a missing colour. *)
Definition getPatternStyle (p : Pattern) : option Style :=
  match type p with
  | solid => Some (css_color (Some 0))
  | horizontal => Some (linear_gradient to_bottom (gradientStops (100 / 5)))
  | vertical => Some (linear_gradient to_right (gradientStops (100 / 5)))
  | diagonal => Some (linear_gradient (deg 45) (gradientStops (100 / 5)))
  | checkerboard =>
      c1 ← escaped p 0;
      c2 ← escaped p 1;
      Some (svg_image (
        row ← seqZ 0 4;
        col ← seqZ 0 4;
        let color := if Z.rem (row + col) 2 =? 0 then c1 else c2 in
        [svg_rect (inject_Z (col * 25)) (inject_Z (row * 25)) 25 25 color]))
  | quartersquare =>
      c0 ← escaped p 0;
      c1 ← escaped p 1;
      c2 ← escaped p 2;
      c3 ← escaped p 3;
      Some (svg_image
        [svg_polygon [(0, 0); (100, 0); (50, 50)]%Q c0;
         svg_polygon [(100, 0); (100, 100); (50, 50)]%Q c1;
         svg_polygon [(100, 100); (0, 100); (50, 50)]%Q c2;
         svg_polygon [(0, 100); (0, 0); (50, 50)]%Q c3])
  | ninepatch =>
      Some (svg_image (
        row ← seqZ 0 3;
        col ← seqZ 0 3;
        let colorIndex := JS.rem (row * 3 + col) (Z.of_nat (length (colors p))) in
        [svg_rect (inject_Z col * (3333 # 100)) (inject_Z row * (3333 # 100))
                  (3334 # 100) (3334 # 100) colorIndex]))
  | pinwheel =>
      c0 ← escaped p 0;
      c1 ← escaped p 1;
      Some (svg_image
        [svg_polygon [(50, 50); (0, 0); (50, 0)]%Q c0;
         svg_polygon [(50, 50); (50, 0); (100, 0)]%Q c1;
         svg_polygon [(50, 50); (100, 0); (100, 50)]%Q c0;
         svg_polygon [(50, 50); (100, 50); (100, 100)]%Q c1;
         svg_polygon [(50, 50); (100, 100); (50, 100)]%Q c0;
         svg_polygon [(50, 50); (50, 100); (0, 100)]%Q c1;
         svg_polygon [(50, 50); (0, 100); (0, 50)]%Q c0;
         svg_polygon [(50, 50); (0, 50); (0, 0)]%Q c1])
  | flyinggeese =>
      c0 ← escaped p 0;
      c1 ← escaped p 1;
      c2 ← escaped p 2;
      Some (svg_image
        [svg_polygon [(0, 0); (0, 100); (50, 50)]%Q c0;
         svg_polygon [(50, 0); (50, 100); (100, 50)]%Q c1;
         svg_polygon [(0, 0); (50, 0); (50, 50)]%Q c2;
         svg_polygon [(50, 0); (100, 0); (100, 50)]%Q c2;
         svg_polygon [(0, 100); (50, 100); (50, 50)]%Q c2;
         svg_polygon [(50, 100); (100, 100); (100, 50)]%Q c2])
  end.

(** What [applyPatternToElement] writes on a square: the style and
    [rotate(<pattern.rotation || 0>deg)]. *)
Record ElementStyle : Type := mkElementStyle {
  background : Style;
  transform_rotate : Z
}.

(** [pattern.rotation || 0] *)
Definition rotation_or_0 (p : Pattern) : Z := default 0 (rotation p).

(** [applyPatternToElement(element, pattern)] *)
Definition applyPatternToElement (p : Pattern) : option ElementStyle :=
  patternStyle ← getPatternStyle p;
  Some {| background := patternStyle; transform_rotate := rotation_or_0 p |}.

(** ** Random patterns *)

(** The results of the successive calls of [Math.random()]. *)
Definition Tape : Type := nat → Q.

(** Computations that call [Math.random()]. *)
Definition Rand (A : Type) : Type := Tape → A * Tape.

Definition rand_ret {A} (a : A) : Rand A := λ t, (a, t).

Definition rand_bind {A B} (m : Rand A) (k : A → Rand B) : Rand B :=
  λ t, let '(a, t') := m t in k a t'.

(** [Math.random()] *)
Definition random : Rand Q := λ t, (t 0%nat, λ n, t (S n)).

(** A loop body run [n] times, collecting what it pushes. *)
Fixpoint rand_repeat {A} (n : nat) (m : Rand A) : Rand (list A) :=
  match n with
  | O => rand_ret []
  | S n' => rand_bind m (λ a, rand_bind (rand_repeat n' m) (λ l, rand_ret (a :: l)))
  end.

(** [getRandomColor()] *)
Definition getRandomColor : Rand string :=
  rand_bind random (λ r1,
  rand_bind random (λ r2,
  rand_bind random (λ r3,
    let hue := JS.floor_scale r1 360 in
    let saturation := 60 + JS.floor_scale r2 30 in
    let lightness := 60 + JS.floor_scale r3 20 in
    rand_ret ("hsl(" +:+ pretty hue +:+ ", " +:+ pretty saturation +:+ "%, "
              +:+ pretty lightness +:+ "%)")))).

Definition types : list PatternType :=
  [solid; horizontal; vertical; diagonal; checkerboard; quartersquare;
   ninepatch; pinwheel; flyinggeese].

(** [createRandomPattern()]; an index outside [types] gives [undefined],
    which reaches the default fallback. *)
Definition createRandomPattern : Rand Pattern :=
  rand_bind random (λ r,
    let type := JS.index types (JS.floor_scale r (Z.of_nat (length types))) in
    match type with
    | Some solid =>
        rand_bind getRandomColor (λ c,
        rand_ret {| type := solid; colors := [c]; rotation := Some 0 |})
    | Some ((horizontal | vertical | diagonal) as type) =>
        rand_bind (rand_repeat 5 getRandomColor) (λ stripeColors,
        rand_ret {| type := type; colors := stripeColors; rotation := Some 0 |})
    | Some checkerboard =>
        rand_bind getRandomColor (λ a, rand_bind getRandomColor (λ b,
        rand_ret {| type := checkerboard; colors := [a; b]; rotation := Some 0 |}))
    | Some quartersquare =>
        rand_bind getRandomColor (λ a, rand_bind getRandomColor (λ b,
        rand_bind getRandomColor (λ c, rand_bind getRandomColor (λ d,
        rand_ret {| type := quartersquare; colors := [a; b; c; d];
                    rotation := Some 0 |}))))
    | Some ninepatch =>
        rand_bind getRandomColor (λ a, rand_bind getRandomColor (λ b,
        rand_bind getRandomColor (λ c,
        rand_ret {| type := ninepatch; colors := [a; b; c]; rotation := Some 0 |})))
    | Some pinwheel =>
        rand_bind getRandomColor (λ a, rand_bind getRandomColor (λ b,
        rand_ret {| type := pinwheel; colors := [a; b]; rotation := Some 0 |}))
    | Some flyinggeese =>
        rand_bind getRandomColor (λ a, rand_bind getRandomColor (λ b,
        rand_bind getRandomColor (λ c,
        rand_ret {| type := flyinggeese; colors := [a; b; c];
                    rotation := Some 0 |})))
    | None =>
        rand_bind getRandomColor (λ c,
        rand_ret {| type := solid; colors := [c]; rotation := Some 0 |})
    end).

(** The number of colour inputs that [updateColorPickers] creates for a
    pattern type ([numColors]): the colour count a pattern of that type
    carries. *)
Definition numColors (type : PatternType) : nat :=
  match type with
  | solid => 1
  | horizontal | vertical | diagonal => 5
  | checkerboard => 2
  | quartersquare => 4
  | ninepatch => 3
  | pinwheel => 2
  | flyinggeese => 3
  end.

(** A pattern is valid when it carries exactly the colours of its type. *)
Definition valid (p : Pattern) : bool :=
  bool_decide (length (colors p) = numColors (type p)).

Definition set_patterns (st : State) (ps : list Pattern) : State :=
  {| rows := rows st; cols := cols st; patterns := ps;
     library := library st; gridConfig := gridConfig st |}.

Definition set_library (st : State) (l : list Pattern) : State :=
  {| rows := rows st; cols := cols st; patterns := patterns st;
     library := l; gridConfig := gridConfig st |}.

(** [initializeColors()] *)
Definition initializeColors (st : State) : Rand State :=
  let totalSquares := rows st * cols st in
  rand_bind (rand_repeat (Z.to_nat totalSquares) createRandomPattern) (λ ps,
  rand_ret (set_patterns st ps)).

(** ** Rendering the quilt and the library *)

(** One appended [div.quilt-square]: the index it read [patterns] at and
    the style written on it. *)
Record Square : Type := mkSquare {
  patternIndex : Z;
  element : ElementStyle
}.

Record Display : Type := mkDisplay {
  gridTemplateColumns : Z;
  squares : list Square
}.

(** The display-to-logical index of [renderQuilt]'s loop (the drag, drop
    and export code repeat it): [landscapeToPortrait(i)] unless the
    viewport is portrait. *)
Definition displayToPattern (isPortrait : bool) (gc : GridConfig) (i : Z)
  : option Z :=
  if negb isPortrait then landscapeToPortrait gc i else Some i.

(** One iteration of [renderQuilt]'s loop; [None] is a TypeError (a
    missing pattern or colour). *)
Definition renderSquare (isPortrait : bool) (st : State) (i : Z)
  : option Square :=
  patternIndex ← displayToPattern isPortrait (gridConfig st) i;
  pattern ← JS.index (patterns st) patternIndex;
  element ← applyPatternToElement pattern;
  Some {| patternIndex := patternIndex; element := element |}.

(** [renderQuilt()]: the state it leaves and the grid it builds, [None]
    when the loop throws. *)
Definition renderQuilt (w : Window) (st : State)
  : Rand (State * option Display) :=
  let st := updateOrientation w st in
  let isPortrait := isPortrait w in
  let expectedPatternCount := rows st * cols st in
  rand_bind
    (if bool_decide (Z.of_nat (length (patterns st)) ≠ expectedPatternCount)
     then initializeColors st else rand_ret st) (λ st,
  rand_ret (st,
    squares ← mapM (renderSquare isPortrait st) (seqZ 0 (rows st * cols st));
    Some {| gridTemplateColumns := cols st; squares := squares |})).

(** [renderLibrary()]: the styles of the library items, [None] when a
    style throws. *)
Definition renderLibrary (st : State) : option (list Style) :=
  mapM getPatternStyle (library st).

(** [rotatePattern(index)]; [None] in place of the display is a TypeError,
    raised before any assignment when [patterns[index]] is undefined. *)
Definition rotatePattern (w : Window) (index : Z) (st : State)
  : Rand (State * option Display) :=
  match JS.index (patterns st) index with
  | None => rand_ret (st, None)
  | Some p =>
      let r :=
        match rotation p with
        | None => 0
        | Some r => if r =? 0 then 0 else r
        end in
      let p' := {| type := type p; colors := colors p;
                   rotation := Some (Z.rem (r + 90) 360) |} in
      renderQuilt w (set_patterns st (<[Z.to_nat index := p']> (patterns st)))
  end.

(** [setColumns(count)] and [setRows(count)] of the grid settings dialog. *)
Definition setColumns (count : Z) (st : State) : State :=
  {| rows := rows st; cols := cols st; patterns := patterns st;
     library := library st;
     gridConfig := GridConfig.mk (GridConfig.rows (gridConfig st)) count |}.

Definition setRows (count : Z) (st : State) : State :=
  {| rows := rows st; cols := cols st; patterns := patterns st;
     library := library st;
     gridConfig := GridConfig.mk count (GridConfig.cols (gridConfig st)) |}.

(** ** Saving and loading *)

(** A file's text is taken by what [JSON.parse] makes of it: a SyntaxError,
    or the parsed value read at type [QuiltData].  On the values the
    session holds (strings, integers, arrays, plain objects)
    [JSON.parse(JSON.stringify(v))] is deep-equal to [v], so the text that
    [saveQuilt] writes is the document itself. *)
Inductive FileText : Type :=
  | unparsable (message : string)
  | document (quiltData : QuiltData).

(** [saveQuilt()]: the name and the text of the download. *)
Definition saveQuilt (now : Z) (isoNow : string) (st : State)
  : string * FileText :=
  let quiltData :=
    {| qd_patterns := Some (patterns st);
       qd_library := Some (library st);
       qd_gridConfig := Some (gridConfig st);
       savedAt := isoNow |} in
  ("quilt-design-" +:+ pretty now +:+ ".json", document quiltData).

Inductive Cause : Type := SyntaxError (message : string) | TypeError.

(** The two [alert]s of [loadQuilt]. *)
Inductive Alert : Type :=
  | loaded_successfully
  | error_loading (error : Cause).

(** The body of [reader.onload]. *)
Definition onload (w : Window) (text : FileText) (st : State)
  : Rand (State * Alert) :=
  match text with
  | unparsable message => rand_ret (st, error_loading (SyntaxError message))
  | document quiltData =>
      rand_bind
        (match qd_patterns quiltData with
         | Some ps =>
             rand_bind (renderQuilt w (set_patterns st ps)) (λ '(st, d),
             rand_ret (st, bool_decide (is_Some d)))
         | None => rand_ret (st, true)
         end) (λ '(st, ok),
      if negb ok then rand_ret (st, error_loading TypeError) else
      let '(st, ok) :=
        match qd_library quiltData with
        | Some l =>
            let st := set_library st l in
            (st, bool_decide (is_Some (renderLibrary st)))
        | None => (st, true)
        end in
      if negb ok then rand_ret (st, error_loading TypeError) else
      let st :=
        match qd_gridConfig quiltData with
        | Some gc =>
            {| rows := GridConfig.rows gc; cols := GridConfig.cols gc;
               patterns := patterns st; library := library st;
               gridConfig := gc |}
        | None => st
        end in
      rand_ret (st, loaded_successfully))
  end.

(** [loadQuilt(input)]: nothing happens without a selected file. *)
Definition loadQuilt (w : Window) (file : option FileText) (st : State)
  : Rand (State * option Alert) :=
  match file with
  | None => rand_ret (st, None)
  | Some text =>
      rand_bind (onload w text st) (λ '(st, a), rand_ret (st, Some a))
  end.

(** ** Raster renderer *)

(** Canvas coordinates: the diagonal stripes use [Math.sqrt(2)], so a
    coordinate is a number [rat + surd * sqrt 2] with rational [rat] and
    [surd], computed exactly. *)
Record Num : Type := mkNum { rat : Q; surd : Q }.

Definition num (q : Q) : Num := {| rat := q; surd := 0 |}.
Coercion num : Q >-> Num.

(** [Math.sqrt(2)] *)
Definition sqrt2 : Num := {| rat := 0; surd := 1 |}.

Definition nadd (a b : Num) : Num :=
  {| rat := rat a + rat b; surd := surd a + surd b |}%Q.

Definition nopp (a : Num) : Num := {| rat := - rat a; surd := - surd a |}%Q.

(** Product and quotient by a rational. *)
Definition nscale (k : Q) (a : Num) : Num :=
  {| rat := k * rat a; surd := k * surd a |}%Q.

Definition ndiv (a : Num) (k : Q) : Num :=
  {| rat := rat a / k; surd := surd a / k |}%Q.

Definition neqb (a b : Num) : bool :=
  Qeq_bool (rat a) (rat b) && Qeq_bool (surd a) (surd b).

(** The calls made on the 2D context. *)
Inductive CanvasOp : Type :=
  | save
  | restore
  | translate (x y : Num)
  | rotate (degrees : Z)
  | fillStyle (c : Fill)
  | fillRect (x y w h : Num)
  | beginPath
  | moveTo (x y : Num)
  | lineTo (x y : Num)
  | closePath
  | fill
  | rect (x y w h : Num)
  | clip.

(** The three-point path that the triangle branches draw and fill. *)
Definition triangle (c : Fill) (a b d : Num * Num) : list CanvasOp :=
  [fillStyle c; beginPath; moveTo a.1 a.2; lineTo b.1 b.2; lineTo d.1 d.2;
   closePath; fill].

(** The per-type branch of [exportQuiltAsPNG]'s loop, between the cell
    transform and [ctx.restore()]. *)
Definition drawPattern (exportSquareSize : Q) (p : Pattern)
  : list CanvasOp :=
  let S := exportSquareSize in
  match type p with
  | solid => [fillStyle (Some 0); fillRect 0%Q 0%Q S S]
  | horizontal =>
      let stripeHeight := (S / 5)%Q in
      j ← seqZ 0 5;
      [fillStyle (Some j);
       fillRect 0%Q (inject_Z j * stripeHeight)%Q S stripeHeight]
  | vertical =>
      let stripeWidth := (S / 5)%Q in
      j ← seqZ 0 5;
      [fillStyle (Some j);
       fillRect (inject_Z j * stripeWidth)%Q 0%Q stripeWidth S]
  | diagonal =>
      let diagonal := nscale S sqrt2 in
      let stripeWidth := ndiv diagonal 5 in
      [beginPath; rect 0%Q 0%Q S S; clip;
       translate (S / 2)%Q (S / 2)%Q; rotate (-45)] ++
      (j ← seqZ 0 5;
       [fillStyle (Some j);
        fillRect (nadd (ndiv (nopp diagonal) 2) (nscale (inject_Z j) stripeWidth))
                 (ndiv (nopp diagonal) 2) stripeWidth diagonal])
  | checkerboard =>
      let checkSize := (S / 4)%Q in
      row ← seqZ 0 4;
      col ← seqZ 0 4;
      let colorIndex := Z.rem (row + col) 2 in
      [fillStyle (Some colorIndex);
       fillRect (inject_Z col * checkSize)%Q (inject_Z row * checkSize)%Q
                checkSize checkSize]
  | quartersquare =>
      let cx := (S / 2)%Q in
      let cy := (S / 2)%Q in
      triangle (Some 0) (0%Q : Num, 0%Q : Num) (S : Num, 0%Q : Num) (cx : Num, cy : Num) ++
      triangle (Some 1) (S : Num, 0%Q : Num) (S : Num, S : Num) (cx : Num, cy : Num) ++
      triangle (Some 2) (S : Num, S : Num) (0%Q : Num, S : Num) (cx : Num, cy : Num) ++
      triangle (Some 3) (0%Q : Num, S : Num) (0%Q : Num, 0%Q : Num) (cx : Num, cy : Num)
  | ninepatch =>
      let patchSize := (S / 3)%Q in
      row ← seqZ 0 3;
      col ← seqZ 0 3;
      let colorIndex := JS.rem (row * 3 + col) (Z.of_nat (length (colors p))) in
      [fillStyle colorIndex;
       fillRect (inject_Z col * patchSize)%Q (inject_Z row * patchSize)%Q
                patchSize patchSize]
  | pinwheel =>
      let cx := (S / 2)%Q in
      let cy := (S / 2)%Q in
      triangle (Some 0) (cx : Num, cy : Num) (0%Q : Num, 0%Q : Num) (cx : Num, 0%Q : Num) ++
      triangle (Some 1) (cx : Num, cy : Num) (cx : Num, 0%Q : Num) (S : Num, 0%Q : Num) ++
      triangle (Some 0) (cx : Num, cy : Num) (S : Num, 0%Q : Num) (S : Num, cy : Num) ++
      triangle (Some 1) (cx : Num, cy : Num) (S : Num, cy : Num) (S : Num, S : Num) ++
      triangle (Some 0) (cx : Num, cy : Num) (S : Num, S : Num) (cx : Num, S : Num) ++
      triangle (Some 1) (cx : Num, cy : Num) (cx : Num, S : Num) (0%Q : Num, S : Num) ++
      triangle (Some 0) (cx : Num, cy : Num) (0%Q : Num, S : Num) (0%Q : Num, cy : Num) ++
      triangle (Some 1) (cx : Num, cy : Num) (0%Q : Num, cy : Num) (0%Q : Num, 0%Q : Num)
  | flyinggeese =>
      let halfX := (S / 2)%Q in
      let halfY := (S / 2)%Q in
      triangle (Some 0) (0%Q : Num, 0%Q : Num) (0%Q : Num, S : Num) (halfX : Num, halfY : Num) ++
      triangle (Some 1) (halfX : Num, 0%Q : Num) (halfX : Num, S : Num) (S : Num, halfY : Num) ++
      triangle (Some 2) (0%Q : Num, 0%Q : Num) (halfX : Num, 0%Q : Num) (halfX : Num, halfY : Num) ++
      triangle (Some 2) (halfX : Num, 0%Q : Num) (S : Num, 0%Q : Num) (halfX : Num, halfY : Num) ++
      triangle (Some 2) (0%Q : Num, S : Num) (halfX : Num, S : Num) (halfX : Num, halfY : Num) ++
      triangle (Some 2) (halfX : Num, S : Num) (S : Num, S : Num) (halfX : Num, halfY : Num)
  end.

Record Canvas : Type := mkCanvas {
  width : Z;
  height : Z;
  drawn : list CanvasOp
}.

(** The downloaded image: the canvas and the [download] name of the
    link. *)
Record Download : Type := mkDownload {
  canvas : Canvas;
  download : string
}.

(** One iteration of the export loop. *)
Definition exportSquare (w : Window) (st : State) (i : Z)
  : option (list CanvasOp) :=
  let numCols := cols st in
  let exportSquareSize : Q := 100%Q in
  row ← JS.floor_div i numCols;
  col ← JS.rem i numCols;
  let x := (inject_Z col * exportSquareSize)%Q in
  let y := (inject_Z row * exportSquareSize)%Q in
  let currentIsPortrait := isPortrait w in
  patternIndex ←
    (if negb currentIsPortrait then landscapeToPortrait (gridConfig st) i
     else Some i);
  pattern ← JS.index (patterns st) patternIndex;
  let rotation := rotation_or_0 pattern in
  Some ([save] ++
        (if bool_decide (rotation ≠ 0)
         then [translate (x + exportSquareSize / 2)%Q (y + exportSquareSize / 2)%Q;
               rotate rotation;
               translate (- exportSquareSize / 2)%Q (- exportSquareSize / 2)%Q]
         else [translate x y]) ++
        drawPattern exportSquareSize pattern ++ [restore]).

(** [exportQuiltAsPNG()], with the clock value [now] that names the file;
    [None] is the TypeError of a missing pattern.  (The link is only made
    when the browser hands [toBlob]'s callback a blob.) *)
Definition exportQuiltAsPNG (w : Window) (now : Z) (st : State)
  : option Download :=
  let numCols := cols st in
  let numRows := rows st in
  let exportSquareSize := 100 in
  cells ← mapM (exportSquare w st) (seqZ 0 (numRows * numCols));
  Some {| canvas := {| width := numCols * exportSquareSize;
                       height := numRows * exportSquareSize;
                       drawn := concat cells |};
          download := "quilt-" +:+ pretty now +:+ ".png" |}.

(** [applyGridSettings()] *)
Definition applyGridSettings (w : Window) (st : State)
  : Rand (State * option Display) :=
  rand_bind (initializeColors st) (λ st, renderQuilt w st).

(** [n] successive calls of [rotatePattern(index)]. *)
Fixpoint rotatePattern_times (n : nat) (w : Window) (index : Z) (st : State)
  : Rand State :=
  match n with
  | O => rand_ret st
  | S n' =>
      rand_bind (rotatePattern w index st) (λ r,
      rotatePattern_times n' w index r.1)
  end.

(** [p] after one [rotatePattern]: only the rotation moves on. *)
Definition rotated (p : Pattern) : Pattern :=
  {| type := type p; colors := colors p;
     rotation := Some (Z.rem (rotation_or_0 p + 90) 360) |}.

(** The state in which [onload] applied the library and the grid
    configuration of the document [q]. *)
Definition restore_rest (q : QuiltData) (st : State) : State :=
  let gc := default (gridConfig st) (qd_gridConfig q) in
  {| rows := match qd_gridConfig q with Some _ => GridConfig.rows gc | None => rows st end;
     cols := match qd_gridConfig q with Some _ => GridConfig.cols gc | None => cols st end;
     patterns := patterns st;
     library := default (library st) (qd_library q);
     gridConfig := gc |}.

(** The pattern index that the first appended square read. *)
Definition first_index (r : State * option Display) : option Z :=
  d ← r.2; sq ← squares d !! 0%nat; Some (patternIndex sq).

(** The pattern indices that the first [k] appended squares read. *)
Definition first_indices (k : nat) (r : State * option Display)
  : option (list Z) :=
  d ← r.2; Some (patternIndex <$> take k (squares d)).

(** ** The geometry that a style and a drawing describe *)

(** A painted region of a square cell: an axis-parallel rectangle, a
    polygon, or a band across the cell perpendicular to the 45 degree
    direction (towards the top right corner), between two signed
    distances from the centre of the cell along that direction. *)
Inductive Region : Type :=
  | region_rect (x y w h : Q)
  | region_polygon (points : list (Q * Q))
  | region_band45 (lo hi : Num).

Abbreviation Painted := (list (Region * option Z)).

(** The solid bands of a gradient with hard colour stops: two consecutive
    stops of one colour bound a band; a change of colour must happen at
    one position (anything else is a blend, which is no region). *)
Fixpoint bands (stops : list (Fill * Q)) : option (list (Fill * (Q * Q))) :=
  match stops with
  | (c1, a) :: (((c2, b) :: _) as rest) =>
      tl ← bands rest;
      if bool_decide (c1 = c2) then Some ((c1, (a, b)) :: tl)
      else if Qeq_bool a b then Some tl else None
  | _ => Some []
  end.

(** The bands of a gradient, each turned into a region. *)
Definition band_regions (region : Q → Q → Region) (stops : list (Fill * Q))
  : option Painted :=
  fmap (M := list) (λ b : Fill * (Q * Q), (region b.2.1 b.2.2, b.1))
    <$> bands stops.

Definition svg_region (e : SvgElement) : Region * Fill :=
  match e with
  | svg_rect x y w h c => (region_rect x y w h, c)
  | svg_polygon pts c => (region_polygon pts, c)
  end.

(** The regions of a style in the 100 by 100 box of the style layer.  A
    [45deg] gradient runs along the diagonal of the box, of length
    [100 * sqrt 2], from the bottom left corner. *)
Definition style_regions (s : Style) : option Painted :=
  match s with
  | css_color c => Some [(region_rect 0 0 100 100, c)]
  | linear_gradient to_bottom stops =>
      band_regions (λ a b, region_rect 0 a 100 (b - a)) stops
  | linear_gradient to_right stops =>
      band_regions (λ a b, region_rect a 0 (b - a) 100) stops
  | linear_gradient (deg angle) stops =>
      let line := nscale 100 sqrt2 in
      let at_ (pos : Q) := nadd (ndiv (nopp line) 2) (nscale (pos / 100) line) in
      if angle =? 45
      then band_regions (λ a b, region_band45 (at_ a) (at_ b)) stops
      else None
  | svg_image elements => Some (svg_region <$> elements)
  end.

(** The frame the context draws in: the cell's own, the cell's moved to
    its centre, or that turned by -45 degrees. *)
Inductive Frame : Type := frame_cell | frame_centre | frame_diagonal.

Record Context : Type := mkContext {
  ctx_fill : Fill;
  ctx_path : list (Q * Q);
  ctx_rect : option (Num * Num * Num * Num);
  ctx_clipped : bool;
  ctx_frame : Frame;
  ctx_painted : Painted
}.

Definition rational (a : Num) : option Q :=
  if Qeq_bool (surd a) 0 then Some (rat a) else None.

(** The effect of one context call while a cell of side [size] is drawn;
    [None] for a call that this reading of the canvas does not cover. *)
Definition canvas_step (size : Q) (c : Context) (op : CanvasOp)
  : option Context :=
  let diagonal := nscale size sqrt2 in
  match op with
  | fillStyle f =>
      Some (mkContext f (ctx_path c) (ctx_rect c) (ctx_clipped c)
                      (ctx_frame c) (ctx_painted c))
  | fillRect x y w h =>
      match ctx_frame c with
      | frame_cell =>
          x ← rational x; y ← rational y; w ← rational w; h ← rational h;
          Some (mkContext (ctx_fill c) (ctx_path c) (ctx_rect c)
                  (ctx_clipped c) (ctx_frame c)
                  (ctx_painted c ++ [(region_rect x y w h, ctx_fill c)]))
      | frame_diagonal =>
          if ctx_clipped c && neqb y (ndiv (nopp diagonal) 2) && neqb h diagonal
          then Some (mkContext (ctx_fill c) (ctx_path c) (ctx_rect c)
                  (ctx_clipped c) (ctx_frame c)
                  (ctx_painted c ++ [(region_band45 x (nadd x w), ctx_fill c)]))
          else None
      | frame_centre => None
      end
  | beginPath =>
      Some (mkContext (ctx_fill c) [] None (ctx_clipped c) (ctx_frame c)
                      (ctx_painted c))
  | moveTo x y | lineTo x y =>
      x ← rational x; y ← rational y;
      Some (mkContext (ctx_fill c) (ctx_path c ++ [(x, y)]) (ctx_rect c)
                      (ctx_clipped c) (ctx_frame c) (ctx_painted c))
  | closePath => Some c
  | fill =>
      match ctx_frame c with
      | frame_cell =>
          Some (mkContext (ctx_fill c) (ctx_path c) (ctx_rect c)
                  (ctx_clipped c) (ctx_frame c)
                  (ctx_painted c ++ [(region_polygon (ctx_path c), ctx_fill c)]))
      | _ => None
      end
  | rect x y w h =>
      Some (mkContext (ctx_fill c) (ctx_path c) (Some (x, y, w, h))
                      (ctx_clipped c) (ctx_frame c) (ctx_painted c))
  | clip =>
      match ctx_frame c, ctx_rect c with
      | frame_cell, Some (x, y, w, h) =>
          if neqb x 0%Q && neqb y 0%Q && neqb w size && neqb h size
          then Some (mkContext (ctx_fill c) (ctx_path c) (ctx_rect c) true
                               (ctx_frame c) (ctx_painted c))
          else None
      | _, _ => None
      end
  | translate x y =>
      match ctx_frame c with
      | frame_cell =>
          if neqb x (size / 2)%Q && neqb y (size / 2)%Q
          then Some (mkContext (ctx_fill c) (ctx_path c) (ctx_rect c)
                               (ctx_clipped c) frame_centre (ctx_painted c))
          else None
      | _ => None
      end
  | rotate d =>
      match ctx_frame c with
      | frame_centre =>
          if d =? -45
          then Some (mkContext (ctx_fill c) (ctx_path c) (ctx_rect c)
                               (ctx_clipped c) frame_diagonal (ctx_painted c))
          else None
      | _ => None
      end
  | save | restore => None
  end.

(** The regions that a drawing paints, in drawing order. *)
Definition canvas_regions (size : Q) (ops : list CanvasOp) : option Painted :=
  ctx_painted <$>
    foldl (λ c op, c ← c; canvas_step size c op)
          (Some (mkContext None [] None false frame_cell [])) ops.

(** Uniform scaling of a region by [k]. *)
Definition scale_region (k : Q) (r : Region) : Region :=
  match r with
  | region_rect x y w h => region_rect (k * x) (k * y) (k * w) (k * h)
  | region_polygon pts => region_polygon ((λ '(x, y), (k * x, k * y)%Q) <$> pts)
  | region_band45 lo hi => region_band45 (nscale k lo) (nscale k hi)
  end.

Definition point_eqb (a b : Q * Q) : bool :=
  Qeq_bool a.1 b.1 && Qeq_bool a.2 b.2.

Fixpoint list_eqb {A} (eqb : A → A → bool) (l k : list A) : bool :=
  match l, k with
  | [], [] => true
  | a :: l, b :: k => eqb a b && list_eqb eqb l k
  | _, _ => false
  end.

(** Two regions are the same point set description: equal coordinates as
    numbers. *)
Definition region_eqb (r s : Region) : bool :=
  match r, s with
  | region_rect x y w h, region_rect x' y' w' h' =>
      Qeq_bool x x' && Qeq_bool y y' && Qeq_bool w w' && Qeq_bool h h'
  | region_polygon p, region_polygon p' => list_eqb point_eqb p p'
  | region_band45 lo hi, region_band45 lo' hi' => neqb lo lo' && neqb hi hi'
  | _, _ => false
  end.

Definition painted_eqb (r s : Region * Fill) : bool :=
  region_eqb r.1 s.1 && bool_decide (r.2 = s.2).

(** The raster drawing of [p] at side [size] fills the regions of the
    style of [p] scaled from the 100-unit box, with the same colour
    slots, in the same order. *)
Definition raster_agrees_with_style (size : Q) (p : Pattern) : bool :=
  match getPatternStyle p ≫= style_regions,
        canvas_regions size (drawPattern size p) with
  | Some s, Some r =>
      list_eqb painted_eqb ((λ '(g, c), (scale_region (size / 100) g, c)) <$> s) r
  | _, _ => false
  end.

(** Two painted regions are rectangles with the same colour slot whose
    coordinates differ by at most [eps]. *)
Definition rect_close (eps : Q) (r s : Region * Fill) : bool :=
  match r.1, s.1 with
  | region_rect x y w h, region_rect x' y' w' h' =>
      Qle_bool (Qabs (x - x')) eps && Qle_bool (Qabs (y - y')) eps
      && Qle_bool (Qabs (w - w')) eps && Qle_bool (Qabs (h - h')) eps
      && bool_decide (r.2 = s.2)
  | _, _ => false
  end.

(** The regions of the style of [p] and of its raster drawing at side
    100, side by side. *)
Definition style_painted (p : Pattern) : Painted :=
  default [] (getPatternStyle p ≫= style_regions).

Definition raster_painted (p : Pattern) : Painted :=
  default [] (canvas_regions 100 (drawPattern 100 p)).

(** ** Sample inputs *)

Definition landscape_window : Window := {| innerWidth := 1280; innerHeight := 720 |}.
Definition portrait_window : Window := {| innerWidth := 390; innerHeight := 844 |}.

(** A sequence of [Math.random()] results in [0, 1). *)
Definition sample_tape : Tape := λ n, (Z.of_nat ((n * 37 + 11) mod 100) # 100)%Q.

Definition run {A} (m : Rand A) : A := (m sample_tape).1.

(** The session after the script's initial statements
    ([initializeColors(); renderQuilt(); ...]) on a landscape viewport. *)
Definition started_session : State :=
  (run (rand_bind (initializeColors initial_state)
                  (renderQuilt landscape_window))).1.

(** A session in which the user chose a 2 by 3 grid in the settings
    dialog and applied it. *)
Definition small_session : State :=
  (run (applyGridSettings landscape_window
          (setColumns 3 (setRows 2 started_session)))).1.

Definition sample_geese : Pattern :=
  {| type := flyinggeese; colors := ["#ff6b9d"; "#667eea"; "#f093fb"];
     rotation := Some 0 |}.

(** ** The remaining functions of quilt.ts *)

(** JavaScript numbers with their non-finite values, for the one
    computation whose divisor may be zero without an error: the square
    size. *)
Inductive Number : Type := NaN | NegInfinity | Finite (z : Z) | PosInfinity.

(** [Math.floor(a / b)] on integers [a] and [b]. *)
Definition floor_quotient (a b : Z) : Number :=
  if b =? 0
  then (if a =? 0 then NaN else if 0 <? a then PosInfinity else NegInfinity)
  else Finite (a / b).

(** [Math.min] and [Math.max] of two numbers: NaN if either is. *)
Definition number_min (x y : Number) : Number :=
  match x, y with
  | NaN, _ | _, NaN => NaN
  | NegInfinity, _ | _, NegInfinity => NegInfinity
  | PosInfinity, z | z, PosInfinity => z
  | Finite a, Finite b => Finite (Z.min a b)
  end.

Definition number_max (x y : Number) : Number :=
  match x, y with
  | NaN, _ | _, NaN => NaN
  | PosInfinity, _ | _, PosInfinity => PosInfinity
  | NegInfinity, z | z, NegInfinity => z
  | Finite a, Finite b => Finite (Z.max a b)
  end.

(** [availableHeight] and [availableWidth] of [calculateSquareSize]: the
    controls take 200 pixels above the quilt in portrait, 320 beside it in
    landscape. *)
Definition available (w : Window) : Z * Z :=
  if isPortrait w
  then let controlHeight := 200 in
       (innerHeight w - controlHeight, innerWidth w - 40)
  else let controlWidth := 320 in
       (innerHeight w - 30, innerWidth w - controlWidth - 40).

(** [calculateSquareSize()] *)
Definition calculateSquareSize (w : Window) (st : State) : Number :=
  let numCols := cols st in
  let numRows := rows st in
  let '(availableHeight, availableWidth) := available w in
  let sizeByHeight := floor_quotient (availableHeight - 20) numRows in
  let sizeByWidth := floor_quotient (availableWidth - 20) numCols in
  number_max (Finite 30)
    (number_min (number_min sizeByHeight sizeByWidth) (Finite 100)).

(** [defaultColors] of [updateColorPickers]. *)
Definition defaultColors (type : PatternType) : list string :=
  match type with
  | solid => ["#ff6b9d"]
  | horizontal | vertical | diagonal =>
      ["#ff6b9d"; "#764ba2"; "#667eea"; "#f093fb"; "#4facfe"]
  | checkerboard => ["#ff6b9d"; "#667eea"]
  | quartersquare => ["#ff6b9d"; "#764ba2"; "#667eea"; "#f093fb"]
  | ninepatch => ["#ff6b9d"; "#667eea"; "#f093fb"]
  | pinwheel => ["#ff6b9d"; "#667eea"]
  | flyinggeese => ["#ff6b9d"; "#667eea"; "#f093fb"]
  end.

(** [updateColorPickers()] for the selected [type]: the values of the
    colour inputs it puts in the picker (a colour input given [undefined]
    shows black). *)
Definition updateColorPickers (type : PatternType) : list string :=
  (λ i, default "#000000" (defaultColors type !! i)) <$> seq 0 (numColors type).

(** [addPatternToLibrary()] with the selected [type] and the values of
    the colour inputs. *)
Definition addPatternToLibrary (type : PatternType) (picker : list string)
    (st : State) : State :=
  let colors := picker in
  let pattern := {| type := type; colors := colors; rotation := Some 0 |} in
  set_library st (library st ++ [pattern]).

(** The delete button of library item [index]:
    [library.splice(index, 1)]. *)
Definition deleteLibraryItem (index : nat) (st : State) : State :=
  set_library st (delete index (library st)).

(** [JSON.parse(JSON.stringify(v))]: a copy of a pattern; on [undefined]
    the parse throws a SyntaxError ([None]). *)
Definition copy_of (v : option Pattern) : option Pattern := v.

(** [arr[i] = v]: the entry is replaced, or added when [i] is the length.
    An index further out, negative or NaN leaves holes or a named
    property on the array, which a list does not represent ([None]). *)
Definition assign {A} (arr : list A) (i : option Z) (v : A) : option (list A) :=
  match i with
  | Some i =>
      if bool_decide (0 ≤ i < Z.of_nat (length arr))
      then Some (<[Z.to_nat i := v]> arr)
      else if bool_decide (i = Z.of_nat (length arr)) then Some (arr ++ [v])
      else None
  | None => None
  end.

(** How a drop handler ends: the target square is restyled, nothing is
    done, or an exception leaves the handler. *)
Inductive Dropped : Type :=
  | restyled (e : ElementStyle)
  | ignored
  | thrown.

(** [patterns[target] = copy; applyPatternToElement(square,
    patterns[target])], the common end of the drop handlers. *)
Definition place (target : option Z) (copy : option Pattern) (st : State)
  : option (State * Dropped) :=
  match copy with
  | None => Some (st, thrown)
  | Some p =>
      ps ← assign (patterns st) target p;
      Some (set_patterns st ps,
            match applyPatternToElement p with
            | Some e => restyled e
            | None => thrown
            end)
  end.

(** The [drop] listener of square [i], with the [isPortrait] of the
    render that made the square and the two drag trackers. *)
Definition drop (isPortrait : bool) (i : Z)
    (draggedLibraryPattern draggedIndex : option Z) (st : State)
  : option (State * Dropped) :=
  let targetPatternIndex := displayToPattern isPortrait (gridConfig st) i in
  match draggedLibraryPattern, draggedIndex with
  | Some k, _ =>
      place targetPatternIndex (copy_of (JS.index (library st) k)) st
  | None, Some d =>
      if bool_decide (d ≠ i)
      then let sourcePatternIndex :=
             displayToPattern isPortrait (gridConfig st) d in
           place targetPatternIndex
             (copy_of (sourcePatternIndex ≫= JS.index (patterns st))) st
      else Some (st, ignored)
  | None, None => Some (st, ignored)
  end.

(** The [touchend] listener of a square: [targetSquareIndex] is the square
    under the finger, if any. *)
Definition touchend (isPortrait : bool) (targetSquareIndex : option Z)
    (draggedLibraryPattern draggedIndex : option Z) (st : State)
  : option (State * Dropped) :=
  match targetSquareIndex, draggedIndex with
  | Some j, Some d =>
      if bool_decide (d ≠ j)
      then let targetPatternIndex :=
             displayToPattern isPortrait (gridConfig st) j in
           match draggedLibraryPattern with
           | Some k =>
               place targetPatternIndex (copy_of (JS.index (library st) k)) st
           | None =>
               let sourcePatternIndex :=
                 displayToPattern isPortrait (gridConfig st) d in
               place targetPatternIndex
                 (copy_of (sourcePatternIndex ≫= JS.index (patterns st))) st
           end
      else Some (st, ignored)
  | _, _ => Some (st, ignored)
  end.

(** The [touchend] listener of library item [index]: the pattern is
    stored at the index of the square under the finger, as it is. *)
Definition library_touchend (index : Z) (targetSquareIndex : option Z)
    (st : State) : option (State * Dropped) :=
  match targetSquareIndex with
  | Some j => place (Some j) (copy_of (JS.index (library st) index)) st
  | None => Some (st, ignored)
  end.

(** The drawing of the drag image in the [dragstart] listener, between
    the rotation and [ctx.restore()]. *)
Definition drawDragImage (size : Q) (p : Pattern) : list CanvasOp :=
  match type p with
  | solid => [fillStyle (Some 0); fillRect 0%Q 0%Q size size]
  | horizontal =>
      let stripeSize := (size / 5)%Q in
      j ← seqZ 0 5;
      [fillStyle (Some j); fillRect 0%Q (inject_Z j * stripeSize)%Q size stripeSize]
  | vertical =>
      let stripeSize := (size / 5)%Q in
      j ← seqZ 0 5;
      [fillStyle (Some j); fillRect (inject_Z j * stripeSize)%Q 0%Q stripeSize size]
  | diagonal =>
      j ← seqZ 0 5;
      let diagonal := nscale size sqrt2 in
      let diagStripeSize := ndiv diagonal 5 in
      [fillStyle (Some j); save;
       translate (size / 2)%Q (size / 2)%Q; rotate (-45);
       fillRect (nadd (ndiv (nopp diagonal) 2) (nscale (inject_Z j) diagStripeSize))
                (ndiv (nopp diagonal) 2) diagStripeSize diagonal;
       restore]
  | checkerboard =>
      let checkSize := (size / 4)%Q in
      row ← seqZ 0 4;
      col ← seqZ 0 4;
      [fillStyle (Some (Z.rem (row + col) 2));
       fillRect (inject_Z col * checkSize)%Q (inject_Z row * checkSize)%Q
                checkSize checkSize]
  | quartersquare =>
      let cx := (size / 2)%Q in
      let cy := (size / 2)%Q in
      triangle (Some 0) (0%Q : Num, 0%Q : Num) (size : Num, 0%Q : Num) (cx : Num, cy : Num) ++
      triangle (Some 1) (size : Num, 0%Q : Num) (size : Num, size : Num) (cx : Num, cy : Num) ++
      triangle (Some 2) (size : Num, size : Num) (0%Q : Num, size : Num) (cx : Num, cy : Num) ++
      triangle (Some 3) (0%Q : Num, size : Num) (0%Q : Num, 0%Q : Num) (cx : Num, cy : Num)
  | ninepatch | pinwheel | flyinggeese => []
  end.


(** The square that [renderQuilt] shows at display index [i]. *)
Definition shown (d : option Display) (i : Z) : option Square :=
  d ← d; squares d !! Z.to_nat i.

(** Two picked colours, for the samples. *)
Definition sample_picker : list string := ["#112233"; "#445566"].

(** * Properties *)

(** ** Orientation mapper *)

Section Orientation.

Variable gc : GridConfig.
Let R := GridConfig.rows gc.
Let C := GridConfig.cols gc.

Lemma div_mod_linear (a b c : Z) :
  0 ≤ b < c → (a * c + b) / c = a ∧ (a * c + b) mod c = b.
Proof.
  intros Hb. split.
  - symmetry. apply (Z.div_unique_pos _ c a b); lia.
  - symmetry. apply (Z.mod_unique_pos _ c a b); lia.
Qed.

(** On a non-negative index and a positive divisor, JavaScript's [%] is
    the mathematical modulus. *)
Lemma js_rem_mod (a b : Z) : 0 ≤ a → 0 < b → JS.rem a b = Some (a mod b).
Proof.
  intros Ha Hb. unfold JS.rem.
  destruct (Z.eqb_spec b 0) as [->|_]; [lia|].
  by rewrite Z.rem_mod_nonneg.
Qed.

Lemma js_floor_div_pos (a b : Z) : 0 < b → JS.floor_div a b = Some (a / b).
Proof.
  intros Hb. unfold JS.floor_div. destruct (Z.eqb_spec b 0); [lia|done].
Qed.

Lemma landscapeToPortrait_eq (i : Z) :
  0 ≤ i → 0 < R →
  landscapeToPortrait gc i = Some ((i mod R) * C + (C - 1 - i / R)).
Proof.
  intros Hi HR. unfold landscapeToPortrait. fold R C.
  rewrite js_floor_div_pos, js_rem_mod by done. done.
Qed.

Lemma portraitToLandscape_eq (p : Z) :
  0 ≤ p → 0 < C →
  portraitToLandscape gc p = Some ((C - 1 - p mod C) * R + p / C).
Proof.
  intros Hp HC. unfold portraitToLandscape. fold R C.
  rewrite js_floor_div_pos, js_rem_mod by done. done.
Qed.

Lemma landscapeToPortrait_range (i : Z) :
  1 ≤ R → 1 ≤ C → 0 ≤ i < R * C →
  ∃ p, landscapeToPortrait gc i = Some p ∧ 0 ≤ p < R * C.
Proof.
  intros HR HC Hi. eexists. split; [apply landscapeToPortrait_eq; lia|].
  pose proof (Z.mod_pos_bound i R ltac:(lia)).
  assert (0 ≤ i / R < C).
  { split; [apply Z.div_pos; lia|apply Z.div_lt_upper_bound; lia]. }
  nia.
Qed.

Lemma portraitToLandscape_range (p : Z) :
  1 ≤ R → 1 ≤ C → 0 ≤ p < R * C →
  ∃ i, portraitToLandscape gc p = Some i ∧ 0 ≤ i < R * C.
Proof.
  intros HR HC Hp. eexists. split; [apply portraitToLandscape_eq; lia|].
  pose proof (Z.mod_pos_bound p C ltac:(lia)).
  assert (0 ≤ p / C < R).
  { split; [apply Z.div_pos; lia|apply Z.div_lt_upper_bound; lia]. }
  nia.
Qed.

Lemma portraitToLandscape_landscapeToPortrait (i p : Z) :
  1 ≤ R → 1 ≤ C → 0 ≤ i < R * C →
  landscapeToPortrait gc i = Some p → portraitToLandscape gc p = Some i.
Proof.
  intros HR HC Hi Hp.
  destruct (landscapeToPortrait_range i) as (p' & Hp' & Hr); [done..|].
  assert (p' = p) as -> by congruence.
  rewrite landscapeToPortrait_eq in Hp by lia. injection Hp as <-.
  rewrite portraitToLandscape_eq by lia. f_equal.
  pose proof (Z.mod_pos_bound i R ltac:(lia)).
  assert (0 ≤ i / R < C).
  { split; [apply Z.div_pos; lia|apply Z.div_lt_upper_bound; lia]. }
  destruct (div_mod_linear (i mod R) (C - 1 - i / R) C) as [-> ->]; [lia|].
  pose proof (Z.div_mod i R ltac:(lia)). lia.
Qed.

Lemma landscapeToPortrait_portraitToLandscape (p i : Z) :
  1 ≤ R → 1 ≤ C → 0 ≤ p < R * C →
  portraitToLandscape gc p = Some i → landscapeToPortrait gc i = Some p.
Proof.
  intros HR HC Hp Hi.
  destruct (portraitToLandscape_range p) as (i' & Hi' & Hr); [done..|].
  assert (i' = i) as -> by congruence.
  rewrite portraitToLandscape_eq in Hi by lia. injection Hi as <-.
  rewrite landscapeToPortrait_eq by lia. f_equal.
  pose proof (Z.mod_pos_bound p C ltac:(lia)).
  assert (0 ≤ p / C < R).
  { split; [apply Z.div_pos; lia|apply Z.div_lt_upper_bound; lia]. }
  destruct (div_mod_linear (C - 1 - p mod C) (p / C) R) as [-> ->]; [lia|].
  pose proof (Z.div_mod p C ltac:(lia)). lia.
Qed.

End Orientation.

(** C3: for a grid with at least one row and every display index [i]
    (a non-negative integer), [landscapeToPortrait] returns
    [logicalRow * logicalCols + logicalCol] with [row = floor(i / dCols)],
    [col = i mod dCols], [logicalRow = col], [logicalCol = dRows - 1 - row],
    where [dCols = gridConfig.rows], [dRows = gridConfig.cols] and
    [logicalCols = gridConfig.cols]. *)
Theorem landscapeToPortrait_is_rotation_transform (gc : GridConfig) (i : Z) :
  1 ≤ GridConfig.rows gc → 0 ≤ i →
  landscapeToPortrait gc i =
    Some (rotation_transform (GridConfig.cols gc) (GridConfig.rows gc)
                             (GridConfig.cols gc) i).
Proof.
  intros HR Hi. rewrite landscapeToPortrait_eq by lia. done.
Qed.

Lemma landscapeToPortrait_is_rotation_transform_witness :
  landscapeToPortrait (GridConfig.mk 6 8) 17 =
    Some (rotation_transform 8 6 8 17).
Proof.
  apply (landscapeToPortrait_is_rotation_transform (GridConfig.mk 6 8) 17);
    simpl; lia.
Defined.

(** C4: for every grid with [rows >= 1] and [cols >= 1],
    [landscapeToPortrait] is a bijection on [0 .. rows*cols - 1]: every
    output lies in the range and the inverse rotation takes it back to the
    display index; no two display indices share a logical index; and every
    logical index is the image of the display index that the inverse
    gives. *)
Theorem landscapeToPortrait_bijection (gc : GridConfig) :
  1 ≤ GridConfig.rows gc → 1 ≤ GridConfig.cols gc →
  let n := GridConfig.rows gc * GridConfig.cols gc in
  (∀ i, 0 ≤ i < n →
     ∃ p, landscapeToPortrait gc i = Some p ∧ 0 ≤ p < n ∧
          portraitToLandscape gc p = Some i) ∧
  (∀ i j, 0 ≤ i < n → 0 ≤ j < n →
     landscapeToPortrait gc i = landscapeToPortrait gc j → i = j) ∧
  (∀ p, 0 ≤ p < n →
     ∃ i, portraitToLandscape gc p = Some i ∧ 0 ≤ i < n ∧
          landscapeToPortrait gc i = Some p).
Proof.
  intros HR HC n. split; [|split].
  - intros i Hi.
    destruct (landscapeToPortrait_range gc i) as (p & Hp & Hr); [done..|].
    exists p. eauto using portraitToLandscape_landscapeToPortrait.
  - intros i j Hi Hj Heq.
    destruct (landscapeToPortrait_range gc i) as (p & Hp & Hr); [done..|].
    pose proof (portraitToLandscape_landscapeToPortrait gc i p HR HC Hi Hp).
    rewrite Heq in Hp.
    pose proof (portraitToLandscape_landscapeToPortrait gc j p HR HC Hj Hp).
    congruence.
  - intros p Hp.
    destruct (portraitToLandscape_range gc p) as (i & Hi & Hr); [done..|].
    exists i. eauto using landscapeToPortrait_portraitToLandscape.
Qed.

Lemma landscapeToPortrait_bijection_witness :
  landscapeToPortrait (GridConfig.mk 6 8) 0 = Some 7 ∧
  portraitToLandscape (GridConfig.mk 6 8) 7 = Some 0.
Proof.
  destruct (landscapeToPortrait_bijection (GridConfig.mk 6 8)) as (H & _ & _);
    [simpl; lia..|].
  destruct (H 0) as (p & Hp & _ & Hinv); [simpl; lia|].
  assert (p = 7) as -> by (vm_compute in Hp; congruence).
  done.
Defined.

(** ** Random patterns *)

Lemma rand_repeat_length {A} (n : nat) (m : Rand A) (t : Tape) :
  length (rand_repeat n m t).1 = n.
Proof.
  revert t. induction n as [|n IH]; intros t; [done|].
  simpl. unfold rand_bind, rand_ret.
  destruct (m t) as [a t1]. specialize (IH t1).
  destruct (rand_repeat n m t1) as [l t2]. simpl in *. by rewrite IH.
Qed.

Lemma rand_repeat_Forall {A} (P : A → Prop) (n : nat) (m : Rand A) (t : Tape) :
  (∀ t, P (m t).1) → Forall P (rand_repeat n m t).1.
Proof.
  intros Hm. revert t. induction n as [|n IH]; intros t; [by constructor|].
  simpl. unfold rand_bind, rand_ret.
  pose proof (Hm t) as Ha. destruct (m t) as [a t1]. specialize (IH t1).
  destruct (rand_repeat n m t1) as [l t2]. simpl in *. by constructor.
Qed.

(** Destructs the next call of [getRandomColor] in the goal. *)
Ltac next_color :=
  match goal with
  | |- context [getRandomColor ?t] =>
      let c := fresh "c" in let t' := fresh "t" in
      destruct (getRandomColor t) as [c t']
  end.

Lemma createRandomPattern_valid (t : Tape) :
  valid (createRandomPattern t).1 = true ∧
  rotation (createRandomPattern t).1 = Some 0.
Proof.
  unfold createRandomPattern, rand_bind, rand_ret.
  destruct (random t) as [r t0].
  destruct (JS.index types _) as [[]|];
    try (repeat next_color; done).
  all: pose proof (rand_repeat_length 5 getRandomColor t0) as Hlen;
    destruct (rand_repeat 5 getRandomColor t0) as [l t1]; simpl in *;
    split; [|done]; unfold valid; simpl; by rewrite Hlen.
Qed.

Lemma forallb_valid_Forall (ps : list Pattern) :
  forallb valid ps = true ↔ Forall (λ p, valid p = true) ps.
Proof. rewrite forallb_forall, Forall_forall. by setoid_rewrite list_elem_of_In. Qed.

Lemma initializeColors_spec (st : State) (t : Tape) :
  let st' := (initializeColors st t).1 in
  rows st' = rows st ∧ cols st' = cols st ∧ library st' = library st ∧
  gridConfig st' = gridConfig st ∧
  length (patterns st') = Z.to_nat (rows st * cols st) ∧
  forallb valid (patterns st') = true.
Proof.
  unfold initializeColors, rand_bind, rand_ret.
  pose proof (rand_repeat_length (Z.to_nat (rows st * cols st))
                createRandomPattern t) as Hlen.
  pose proof (rand_repeat_Forall (λ p, valid p = true)
                (Z.to_nat (rows st * cols st)) createRandomPattern t
                (λ t, proj1 (createRandomPattern_valid t))) as Hval.
  destruct (rand_repeat _ _ t) as [ps t']. simpl in *.
  repeat split; try done. by apply forallb_valid_Forall.
Qed.

(** ** Rendering *)

Lemma mapM_seqZ {B} (f : Z → option B) (n : Z) :
  (∀ i, 0 ≤ i < n → is_Some (f i)) →
  ∃ l, mapM f (seqZ 0 n) = Some l ∧ length l = Z.to_nat n ∧
       ∀ i, 0 ≤ i < n → l !! Z.to_nat i = f i.
Proof.
  intros Hf.
  destruct (mapM_is_Some_2 f (seqZ 0 n)) as [l Hl].
  { apply Forall_seqZ. intros i Hi. apply Hf. lia. }
  exists l. split; [done|]. apply mapM_Some_1 in Hl.
  split.
  - rewrite <-(Forall2_length _ _ _ Hl). apply length_seqZ.
  - intros i Hi.
    destruct (Forall2_lookup_l _ _ _ (Z.to_nat i) i Hl) as (y & Hy & Hfy).
    { rewrite lookup_seqZ_lt by lia. f_equal. lia. }
    congruence.
Qed.

Lemma updateOrientation_spec (w : Window) (st : State) :
  let st' := updateOrientation w st in
  patterns st' = patterns st ∧ library st' = library st ∧
  gridConfig st' = gridConfig st ∧
  rows st' * cols st' =
    GridConfig.rows (gridConfig st) * GridConfig.cols (gridConfig st).
Proof.
  unfold updateOrientation. destruct (_ || _); simpl; repeat split; lia.
Qed.

Lemma valid_getPatternStyle (p : Pattern) :
  valid p = true → is_Some (getPatternStyle p).
Proof.
  unfold valid. intros Hv%bool_decide_eq_true.
  destruct p as [k cs r]. unfold getPatternStyle, escaped. simpl in *.
  destruct k; simpl in Hv; try done;
    repeat (destruct cs as [|? cs]; try done).
Qed.

(** The state that [renderQuilt] leaves: the orientation is updated and
    the guard regenerates the patterns when their count is not that of
    the grid. *)
Lemma renderQuilt_state (w : Window) (st : State) (t : Tape) :
  let st1 := updateOrientation w st in
  (renderQuilt w st t).1.1 =
    if bool_decide (Z.of_nat (length (patterns st)) =
                    GridConfig.rows (gridConfig st) * GridConfig.cols (gridConfig st))
    then st1 else (initializeColors st1 t).1.
Proof.
  intros st1. unfold renderQuilt, rand_bind, rand_ret. fold st1.
  destruct (updateOrientation_spec w st) as (Hp & _ & _ & Hn). fold st1 in Hp, Hn.
  rewrite Hp, Hn.
  destruct (decide (Z.of_nat (length (patterns st)) =
     GridConfig.rows (gridConfig st) * GridConfig.cols (gridConfig st))) as [He|He].
  - rewrite bool_decide_eq_false_2 by (intros ?; done).
    by rewrite bool_decide_eq_true_2.
  - rewrite bool_decide_eq_true_2 by done.
    rewrite (bool_decide_eq_false_2 _ He).
    by destruct (initializeColors st1 t).
Qed.

Lemma renderQuilt_tape_kept (w : Window) (st : State) (t : Tape) :
  Z.of_nat (length (patterns st)) =
    GridConfig.rows (gridConfig st) * GridConfig.cols (gridConfig st) →
  (renderQuilt w st t).2 = t.
Proof.
  intros He. unfold renderQuilt, rand_bind, rand_ret.
  destruct (updateOrientation_spec w st) as (Hp & _ & _ & Hn).
  rewrite Hp, Hn. by rewrite bool_decide_eq_false_2 by (intros ?; done).
Qed.

(** The grid that [renderQuilt] builds from the state it leaves. *)
Lemma renderQuilt_display (w : Window) (st : State) (t : Tape) :
  let st' := (renderQuilt w st t).1.1 in
  (renderQuilt w st t).1.2 =
    squares ← mapM (renderSquare (isPortrait w) st') (seqZ 0 (rows st' * cols st'));
    Some {| gridTemplateColumns := cols st'; squares := squares |}.
Proof.
  unfold renderQuilt, rand_bind, rand_ret.
  by destruct (if bool_decide _ then _ else _).
Qed.

(** After [renderQuilt] the patterns are as many as the cells of the
    grid, which has the configured cell count. *)
Lemma renderQuilt_grid (w : Window) (st : State) (t : Tape) :
  let st' := (renderQuilt w st t).1.1 in
  gridConfig st' = gridConfig st ∧ library st' = library st ∧
  (rows st', cols st') = (rows (updateOrientation w st), cols (updateOrientation w st)) ∧
  rows st' * cols st' =
    GridConfig.rows (gridConfig st) * GridConfig.cols (gridConfig st) ∧
  length (patterns st') = Z.to_nat (rows st' * cols st').
Proof.
  intros st'. subst st'. rewrite renderQuilt_state.
  destruct (updateOrientation_spec w st) as (Hp & Hl & Hg & Hn).
  case_bool_decide as He.
  - rewrite Hp, Hg, Hl, Hn. repeat split; try done. lia.
  - destruct (initializeColors_spec (updateOrientation w st) t)
      as (Hr & Hc & Hl' & Hg' & Hlen & Hval).
    rewrite Hr, Hc, Hg', Hl', Hlen, Hg, Hl, Hn. repeat split; try done.
Qed.

(** After [renderQuilt] the patterns are as many as the cells, all of them
    valid if they were before, and the grid has the configured cells. *)
Lemma renderQuilt_consistent (w : Window) (st : State) (t : Tape) :
  forallb valid (patterns st) = true →
  let st' := (renderQuilt w st t).1.1 in
  gridConfig st' = gridConfig st ∧ library st' = library st ∧
  (rows st', cols st') = (rows (updateOrientation w st), cols (updateOrientation w st)) ∧
  rows st' * cols st' =
    GridConfig.rows (gridConfig st) * GridConfig.cols (gridConfig st) ∧
  length (patterns st') = Z.to_nat (rows st' * cols st') ∧
  forallb valid (patterns st') = true.
Proof.
  intros Hv st'. subst st'. rewrite renderQuilt_state.
  destruct (updateOrientation_spec w st) as (Hp & Hl & Hg & Hn).
  case_bool_decide as He.
  - rewrite Hp, Hg, Hl, Hn. repeat split; try done. lia.
  - destruct (initializeColors_spec (updateOrientation w st) t)
      as (Hr & Hc & Hl' & Hg' & Hlen & Hval).
    rewrite Hr, Hc, Hg', Hl', Hlen, Hg, Hl, Hn. repeat split; try done.
Qed.

(** [renderQuilt] returns a grid in which square [i] shows the pattern at
    the index that the orientation mapping gives, for valid patterns and,
    on a landscape viewport, a grid of at least one row and column. *)
Lemma renderQuilt_squares (w : Window) (st : State) (t : Tape) :
  forallb valid (patterns st) = true →
  isPortrait w = true ∨
    (1 ≤ GridConfig.rows (gridConfig st) ∧ 1 ≤ GridConfig.cols (gridConfig st)) →
  let st' := (renderQuilt w st t).1.1 in
  let n := rows st' * cols st' in
  ∃ d, (renderQuilt w st t).1.2 = Some d ∧
       gridTemplateColumns d = cols st' ∧
       length (squares d) = Z.to_nat n ∧
       ∀ i, 0 ≤ i < n →
         ∃ sq p, squares d !! Z.to_nat i = Some sq ∧
                 displayToPattern (isPortrait w) (gridConfig st) i
                   = Some (patternIndex sq) ∧
                 0 ≤ patternIndex sq < n ∧
                 patterns st' !! Z.to_nat (patternIndex sq) = Some p ∧
                 applyPatternToElement p = Some (element sq).
Proof.
  intros Hv Hgc st' n.
  destruct (renderQuilt_consistent w st t Hv) as (Hg & _ & _ & Hn & Hlen & Hv').
  fold st' in Hg, Hn, Hlen, Hv'. fold n in Hn, Hlen.
  assert (∀ i, 0 ≤ i < n →
    ∃ j p e, displayToPattern (isPortrait w) (gridConfig st) i = Some j ∧
             0 ≤ j < n ∧ patterns st' !! Z.to_nat j = Some p ∧
             applyPatternToElement p = Some e) as Hsq.
  { intros i Hi.
    assert (∃ j, displayToPattern (isPortrait w) (gridConfig st) i = Some j ∧
                 0 ≤ j < n) as (j & Hj & Hjr).
    { unfold displayToPattern. destruct Hgc as [->|[HR HC]].
      - exists i. done.
      - destruct (isPortrait w); simpl; [by exists i|].
        rewrite Hn in *. by apply landscapeToPortrait_range. }
    destruct (lookup_lt_is_Some_2 (patterns st') (Z.to_nat j)) as [p Hp]; [lia|].
    assert (valid p = true) as Hvp.
    { apply forallb_valid_Forall in Hv'.
      by eapply (proj1 (Forall_lookup _ _) Hv'). }
    destruct (valid_getPatternStyle p Hvp) as [s Hs].
    exists j, p. eexists. do 3 (split; [done|]).
    unfold applyPatternToElement. by rewrite Hs. }
  destruct (mapM_seqZ (renderSquare (isPortrait w) st') n) as (l & Hl & Hll & Hli).
  { intros i Hi. destruct (Hsq i Hi) as (j & p & e & Hj & Hjr & Hp & He).
    unfold renderSquare. rewrite Hg, Hj. simpl.
    unfold JS.index. destruct (Z.leb_spec 0 j); [|lia].
    rewrite Hp. simpl. rewrite He. done. }
  rewrite renderQuilt_display. fold st' n. rewrite Hl. simpl.
  eexists. split; [done|]. simpl. repeat split; try done.
  intros i Hi. destruct (Hsq i Hi) as (j & p & e & Hj & Hjr & Hp & He).
  specialize (Hli i Hi). unfold renderSquare in Hli.
  rewrite Hg, Hj in Hli. simpl in Hli.
  unfold JS.index in Hli. destruct (Z.leb_spec 0 j); [|lia].
  rewrite Hp in Hli. simpl in Hli. rewrite He in Hli. simpl in Hli.
  eexists _, p. split; [exact Hli|]. simpl. done.
Qed.

(** C7: whatever [Math.random()] returns, the pattern that
    [createRandomPattern] returns carries exactly the colours of its type
    (solid 1; horizontal, vertical, diagonal 5; checkerboard 2;
    quartersquare 4; ninepatch 3; pinwheel 2; flyinggeese 3) and has
    rotation 0. *)
Theorem createRandomPattern_is_valid (t : Tape) :
  let p := (createRandomPattern t).1 in
  length (colors p) =
    match type p with
    | solid => 1 | horizontal | vertical | diagonal => 5 | checkerboard => 2
    | quartersquare => 4 | ninepatch => 3 | pinwheel => 2 | flyinggeese => 3
    end%nat ∧
  rotation p = Some 0.
Proof.
  intros p. destruct (createRandomPattern_valid t) as [Hv Hr]. fold p in Hv, Hr.
  split; [|done]. unfold valid in Hv. apply bool_decide_eq_true in Hv.
  rewrite Hv. by destruct (type p).
Qed.

(** ** What [renderQuilt] shows *)

(** C1: the code departs from the claim.  With the grid configured
    [{rows:6, cols:8}] on a portrait viewport [renderQuilt] shows 8 rows
    by 6 columns, as claimed, but the first square reads index 0 of
    [patterns], not index 7: the rotation mapping, which gives 7 for
    display index 0 and linearises the array by [gridConfig.cols = 8], is
    applied on landscape viewports only, so the 6 columns of the first
    portrait row read the logical cells (0,0) to (0,5). *)
Theorem portrait_6x8_reads_unrotated :
  let gc := gridConfig initial_state in
  let r := run (renderQuilt portrait_window initial_state) in
  gc = GridConfig.mk 6 8 ∧
  isPortrait portrait_window = true ∧
  rows r.1 = 8 ∧ cols r.1 = 6 ∧
  (gridTemplateColumns <$> r.2) = Some 6 ∧
  first_index r = Some 0 ∧ first_index r ≠ Some 7 ∧
  landscapeToPortrait gc 0 = Some 7 ∧
  first_indices 6 r = Some [0; 1; 2; 3; 4; 5].
Proof. vm_compute. repeat split; congruence. Qed.

(** C2: the code departs from the claim.  With the grid wider than tall
    ([{rows:6, cols:8}]) on a landscape viewport, the aspect-consistent
    case, the grid is shown as configured, in 8 columns, but the mapping
    is not the identity: the first square reads [patterns[7]], and the 8
    squares of the first row read the indices 7, 15, 23, 31, 39, 47, 6,
    14, the logical cells (0,7) to (5,7) and then (0,6), (1,6), because
    [landscapeToPortrait] splits the display index by [gridConfig.rows =
    6].  With the grid taller than wide ([{rows:8, cols:6}]) the same
    viewport shows 8 columns whose first row reads 5, 11, 17, 23, 29, 35,
    41, 47, the logical cells (0,5) to (7,5): the quarter turn that the
    function is written for. *)
Theorem landscape_6x8_mapping_is_not_identity :
  let gc := gridConfig initial_state in
  let r := run (renderQuilt landscape_window initial_state) in
  let r' := run (renderQuilt landscape_window
                   (setColumns 6 (setRows 8 initial_state))) in
  (GridConfig.rows gc <? GridConfig.cols gc) = true ∧
  isPortrait landscape_window = false ∧
  (rows r.1, cols r.1) = (GridConfig.rows gc, GridConfig.cols gc) ∧
  (gridTemplateColumns <$> r.2) = Some 8 ∧
  displayToPattern (isPortrait landscape_window) gc 0 = Some 7 ∧
  first_index r = Some 7 ∧ first_index r ≠ Some 0 ∧
  first_indices 8 r = Some [7; 15; 23; 31; 39; 47; 6; 14] ∧
  (gridTemplateColumns <$> r'.2) = Some 8 ∧
  first_indices 8 r' = Some [5; 11; 17; 23; 29; 35; 41; 47].
Proof. vm_compute. repeat split; congruence. Qed.

(** ** Export *)

Lemma exportQuiltAsPNG_returns (w : Window) (now : Z) (st : State) :
  length (patterns st) = Z.to_nat (rows st * cols st) →
  isPortrait w = true ∨
    (1 ≤ GridConfig.rows (gridConfig st) ∧ 1 ≤ GridConfig.cols (gridConfig st) ∧
     rows st * cols st =
       GridConfig.rows (gridConfig st) * GridConfig.cols (gridConfig st)) →
  ∃ d, exportQuiltAsPNG w now st = Some d ∧
       width (canvas d) = cols st * 100 ∧
       height (canvas d) = rows st * 100 ∧
       download d = "quilt-" +:+ pretty now +:+ ".png".
Proof.
  intros Hlen Hgc.
  destruct (mapM_seqZ (exportSquare w st) (rows st * cols st)) as (l & Hl & _).
  { intros i Hi. unfold exportSquare.
    assert (cols st ≠ 0) as Hc by nia.
    unfold JS.floor_div, JS.rem.
    destruct (Z.eqb_spec (cols st) 0); [done|]. simpl.
    assert (∃ j, (if negb (isPortrait w)
                  then landscapeToPortrait (gridConfig st) i else Some i) = Some j
                 ∧ 0 ≤ j < rows st * cols st) as (j & -> & Hj).
    { destruct Hgc as [->|(HR & HC & Hn)]; [by exists i|].
      destruct (isPortrait w); simpl; [by exists i|].
      rewrite Hn in *. by apply landscapeToPortrait_range. }
    simpl. unfold JS.index. destruct (Z.leb_spec 0 j); [|lia].
    destruct (lookup_lt_is_Some_2 (patterns st) (Z.to_nat j)) as [p ->]; [lia|].
    done. }
  unfold exportQuiltAsPNG. rewrite Hl. simpl. eexists. split; [done|]. done.
Qed.

(** C8, as stated, fails: on a portrait viewport the 6 by 8 grid is
    exported 600 pixels wide and 800 tall, not [gridConfig.cols*100 = 800]
    wide and [gridConfig.rows*100 = 600] tall. *)
Lemma export_size_follows_display_grid :
  let st := (run (renderQuilt portrait_window started_session)).1 in
  let size := (λ d, (width (canvas d), height (canvas d)))
                <$> exportQuiltAsPNG portrait_window 1700000000000 st in
  size = Some (600, 800) ∧
  size ≠ Some (GridConfig.cols (gridConfig st) * 100,
               GridConfig.rows (gridConfig st) * 100).
Proof. vm_compute. split; congruence. Qed.

(** C8, amended: after [renderQuilt], for a grid of at least one row and
    column, [exportQuiltAsPNG] produces an image [cols*100] pixels wide
    and [rows*100] tall for the current display dimensions [rows] and
    [cols]: that is [gridConfig.cols*100] by [gridConfig.rows*100] when
    [updateOrientation] kept the configured orientation, and
    [gridConfig.rows*100] by [gridConfig.cols*100] when it swapped it;
    the download is named [quilt-<now>.png]. *)
Theorem exportQuiltAsPNG_size (w : Window) (now : Z) (st : State) (t : Tape) :
  1 ≤ GridConfig.rows (gridConfig st) →
  1 ≤ GridConfig.cols (gridConfig st) →
  let gc := gridConfig st in
  let st' := (renderQuilt w st t).1.1 in
  let swapped :=
    (isPortrait w && (GridConfig.rows gc <? GridConfig.cols gc))
    || (negb (isPortrait w) && negb (GridConfig.rows gc <? GridConfig.cols gc)) in
  ∃ d, exportQuiltAsPNG w now st' = Some d ∧
       width (canvas d) = cols st' * 100 ∧
       height (canvas d) = rows st' * 100 ∧
       (width (canvas d), height (canvas d)) =
         (if swapped
          then (GridConfig.rows gc * 100, GridConfig.cols gc * 100)
          else (GridConfig.cols gc * 100, GridConfig.rows gc * 100)) ∧
       download d = "quilt-" +:+ pretty now +:+ ".png".
Proof.
  intros HR HC gc st' swapped.
  destruct (renderQuilt_grid w st t) as (Hg & _ & Hrc & Hn & Hlen).
  fold st' in Hg, Hrc, Hn, Hlen.
  destruct (exportQuiltAsPNG_returns w now st' Hlen) as (d & Hd & Hw & Hh & Hname).
  { right. rewrite Hg. done. }
  exists d. do 3 (split; [done|]). split; [|done].
  rewrite Hw, Hh. injection Hrc as -> ->.
  unfold updateOrientation. fold gc. fold swapped. by destruct swapped.
Qed.

Lemma exportQuiltAsPNG_size_witness :
  ∃ d, exportQuiltAsPNG landscape_window 1700000000000
         (run (renderQuilt landscape_window initial_state)).1 = Some d ∧
       (width (canvas d), height (canvas d)) = (800, 600) ∧
       download d = "quilt-1700000000000.png".
Proof.
  destruct (exportQuiltAsPNG_size landscape_window 1700000000000 initial_state
              sample_tape) as (d & Hd & _ & _ & Hs & Hn); [simpl; lia..|].
  exists d. split; [exact Hd|]. split; [exact Hs|exact Hn].
Defined.

(** ** Rotation *)

(** One call, in a state whose patterns are as many as the configured
    cells: only [patterns[index]] changes, and no random number is
    drawn. *)
Lemma rotatePattern_step (w : Window) (i : Z) (st : State) (t : Tape) (p : Pattern) :
  0 ≤ i → patterns st !! Z.to_nat i = Some p →
  Z.of_nat (length (patterns st)) =
    GridConfig.rows (gridConfig st) * GridConfig.cols (gridConfig st) →
  let r := rotatePattern w i st t in
  patterns r.1.1 = <[Z.to_nat i := rotated p]> (patterns st) ∧
  library r.1.1 = library st ∧ gridConfig r.1.1 = gridConfig st ∧ r.2 = t.
Proof.
  intros Hi Hp Hn r. subst r. unfold rotatePattern, JS.index.
  destruct (Z.leb_spec 0 i); [|lia]. rewrite Hp.
  assert ((match rotation p with
           | Some r => if r =? 0 then 0 else r | None => 0 end)
          = rotation_or_0 p) as ->.
  { unfold rotation_or_0. destruct (rotation p) as [r|]; [|done]. simpl.
    by destruct (Z.eqb_spec r 0). }
  fold (rotated p).
  set (st1 := set_patterns st (<[Z.to_nat i:=rotated p]> (patterns st))).
  assert (Z.of_nat (length (patterns st1)) =
    GridConfig.rows (gridConfig st1) * GridConfig.cols (gridConfig st1)) as Hn1.
  { simpl. by rewrite length_insert. }
  rewrite renderQuilt_state, renderQuilt_tape_kept by done.
  rewrite bool_decide_eq_true_2 by done.
  by destruct (updateOrientation_spec w st1) as (-> & -> & -> & _).
Qed.

Lemma rotation_or_0_rotated (p : Pattern) :
  rotation_or_0 (rotated p) = Z.rem (rotation_or_0 p + 90) 360.
Proof. done. Qed.

Lemma rotatePattern_times_step (n : nat) (w : Window) (i : Z) (st : State)
    (t : Tape) (p : Pattern) :
  0 ≤ i → patterns st !! Z.to_nat i = Some p →
  Z.of_nat (length (patterns st)) =
    GridConfig.rows (gridConfig st) * GridConfig.cols (gridConfig st) →
  patterns (rotatePattern_times n w i st t).1 =
    <[Z.to_nat i := Nat.iter n rotated p]> (patterns st).
Proof.
  revert st t p. induction n as [|n IH]; intros st t p Hi Hp Hn.
  - simpl. by rewrite list_insert_id.
  - cbn [rotatePattern_times]. unfold rand_bind.
    destruct (rotatePattern_step w i st t p Hi Hp Hn) as (Hps & _ & Hg & _).
    destruct (rotatePattern w i st t) as [[st1 d] t1]. simpl in *.
    assert (Z.to_nat i < length (patterns st))%nat as Hlt
      by by eapply lookup_lt_Some.
    rewrite (IH st1 t1 (rotated p)); [| done | |].
    + rewrite Hps, list_insert_insert_eq. f_equal.
      clear. induction n as [|n IH]; [done|]. simpl. by rewrite <-IH.
    + rewrite Hps. by apply list_lookup_insert_eq.
    + rewrite Hps, Hg, length_insert. done.
Qed.

(** C10, as stated, fails: after [setColumns(4)] in the settings dialog
    (not yet applied) the 48 patterns no longer match the configured 24
    cells, and the [renderQuilt] call that ends [rotatePattern(0)]
    replaces the whole array: other entries change ([patterns[30]] is
    gone) and [patterns[0]] is a fresh pattern, not the old one turned by
    90 degrees. *)
Lemma rotatePattern_regenerates_after_setColumns :
  let st := setColumns 4 started_session in
  let st' := (run (rotatePattern landscape_window 0 st)).1 in
  length (patterns st) = 48%nat ∧
  length (patterns st') = 24%nat ∧
  patterns st' !! 30%nat ≠ patterns st !! 30%nat ∧
  patterns st' !! 0%nat ≠ rotated <$> patterns st !! 0%nat.
Proof. vm_compute. repeat split; congruence. Qed.

(** C10, amended: in a state whose patterns are as many as the cells of
    the configured grid ([patterns.length = gridConfig.rows *
    gridConfig.cols]), for every index [i] with [0 <= i <
    patterns.length], [rotatePattern(i)] sets [patterns[i].rotation] to
    [(r + 90) % 360], [r] being the prior rotation (0 when undefined),
    and changes nothing else: the type and colours of [patterns[i]], every
    other entry, the library and the grid configuration are unchanged.
    A rotation in {0, 90, 180, 270} stays in that set, and four
    successive calls bring it back to its value. *)
Theorem rotatePattern_frame (w : Window) (i : Z) (st : State) (t : Tape) :
  0 ≤ i < Z.of_nat (length (patterns st)) →
  Z.of_nat (length (patterns st)) =
    GridConfig.rows (gridConfig st) * GridConfig.cols (gridConfig st) →
  ∃ p, patterns st !! Z.to_nat i = Some p ∧
    let r := rotation_or_0 p in
    let st' := (rotatePattern w i st t).1.1 in
    patterns st' !! Z.to_nat i =
      Some {| type := type p; colors := colors p;
              rotation := Some (Z.rem (r + 90) 360) |} ∧
    (∀ j, j ≠ Z.to_nat i → patterns st' !! j = patterns st !! j) ∧
    length (patterns st') = length (patterns st) ∧
    library st' = library st ∧ gridConfig st' = gridConfig st ∧
    (r ∈ [0; 90; 180; 270] →
       Z.rem (r + 90) 360 = (r + 90) mod 360 ∧
       Z.rem (r + 90) 360 ∈ [0; 90; 180; 270] ∧
       rotation_or_0 <$> patterns (rotatePattern_times 4 w i st t).1 !! Z.to_nat i
         = Some r).
Proof.
  intros Hi Hn.
  destruct (lookup_lt_is_Some_2 (patterns st) (Z.to_nat i)) as [p Hp]; [lia|].
  exists p. split; [done|]. intros r st'.
  destruct (rotatePattern_step w i st t p) as (Hps & Hl & Hg & _); [lia|done..|].
  fold st' in Hps, Hl, Hg.
  assert (Z.to_nat i < length (patterns st))%nat as Hlt by lia.
  rewrite Hps. split; [by apply list_lookup_insert_eq|].
  split; [intros j Hj; by apply list_lookup_insert_ne|].
  split; [apply length_insert|]. do 2 (split; [done|]).
  rewrite rotatePattern_times_step with (p := p); [|lia|done|done].
  rewrite list_lookup_insert_eq by done. simpl.
  rewrite !rotation_or_0_rotated. subst r.
  generalize (rotation_or_0 p). intros r Hr.
  rewrite !elem_of_cons, elem_of_nil in Hr.
  destruct Hr as [->|[->|[->|[->|[]]]]];
    (split; [reflexivity|]; split; [cbn; repeat constructor|reflexivity]).
Qed.

Lemma rotatePattern_frame_witness :
  ∃ p, patterns started_session !! 3%nat = Some p ∧
       patterns (run (rotatePattern landscape_window 3 started_session)).1 !! 3%nat
         = Some (rotated p).
Proof.
  destruct (rotatePattern_frame landscape_window 3 started_session sample_tape)
    as (p & Hp & H & _); [vm_compute; split; congruence|reflexivity|].
  exists p. split; [exact Hp|exact H].
Defined.

(** ** Loading *)

Lemma onload_rest (w : Window) (q : QuiltData) (st st1 : State)
    (d : option Display) (t t1 : Tape) :
  forallb valid (default [] (qd_library q)) = true →
  match qd_patterns q with
  | Some ps => renderQuilt w (set_patterns st ps) t = ((st1, d), t1) ∧ is_Some d
  | None => st1 = st ∧ t1 = t
  end →
  onload w (document q) st t = ((restore_rest q st1, loaded_successfully), t1).
Proof.
  intros Hlib Hps.
  assert (is_Some (mapM getPatternStyle (default [] (qd_library q)))) as Hl.
  { apply mapM_is_Some_2. apply forallb_valid_Forall in Hlib.
    eapply Forall_impl; [exact Hlib|]. intros p. apply valid_getPatternStyle. }
  unfold onload, rand_bind, rand_ret, restore_rest, renderLibrary.
  destruct q as [[ps|] l gc s]; simpl in *.
  - destruct Hps as [-> Hd]. rewrite (bool_decide_eq_true_2 _ Hd). simpl.
    destruct l as [l|], gc as [gc|]; simpl in *;
      rewrite ?(bool_decide_eq_true_2 _ Hl); simpl; try done; by destruct st1.
  - destruct Hps as [-> ->].
    destruct l as [l|], gc as [gc|]; simpl in *;
      rewrite ?(bool_decide_eq_true_2 _ Hl); simpl; try done; by destruct st.
Qed.

(** What [onload] leaves for a parsed document whose patterns and
    library entries are valid. *)
Lemma onload_document (w : Window) (q : QuiltData) (st : State) (t : Tape) :
  forallb valid (default [] (qd_patterns q)) = true →
  forallb valid (default [] (qd_library q)) = true →
  isPortrait w = true ∨
    (1 ≤ GridConfig.rows (gridConfig st) ∧ 1 ≤ GridConfig.cols (gridConfig st)) →
  let r := (onload w (document q) st t).1 in
  r.2 = loaded_successfully ∧
  library r.1 = default (library st) (qd_library q) ∧
  gridConfig r.1 = default (gridConfig st) (qd_gridConfig q) ∧
  (qd_patterns q = None → patterns r.1 = patterns st) ∧
  (∀ ps, qd_patterns q = Some ps →
     Z.of_nat (length ps) =
       GridConfig.rows (gridConfig st) * GridConfig.cols (gridConfig st) →
     patterns r.1 = ps).
Proof.
  intros Hps Hlib Hgc r. subst r.
  destruct (qd_patterns q) as [ps|] eqn:Hq.
  - simpl in Hps.
    destruct (renderQuilt_squares w (set_patterns st ps) t Hps Hgc)
      as (d & Hd & _).
    destruct (renderQuilt_grid w (set_patterns st ps) t) as (Hg & Hl & _).
    pose proof (renderQuilt_state w (set_patterns st ps) t) as Hst.
    destruct (renderQuilt w (set_patterns st ps) t) as [[st1 d1] t1] eqn:Hr.
    simpl in Hd, Hg, Hl, Hst. subst d1.
    rewrite (onload_rest w q st st1 (Some d) t t1 Hlib) by (rewrite Hq; eauto).
    simpl. rewrite Hg, Hl. do 3 (split; [done|]). split; [done|].
    intros ps' [= <-] Hlen. rewrite Hst, bool_decide_eq_true_2 by done.
    by destruct (updateOrientation_spec w (set_patterns st ps)) as (-> & _).
  - rewrite (onload_rest w q st st None t t Hlib) by (rewrite Hq; eauto).
    simpl. repeat split; done.
Qed.

(** C6, as stated, fails: a snapshot that holds only [patterns] (one
    valid pattern) is loaded without error into the 6 by 8 session, but
    the patterns of the session are then 48 fresh ones, not the
    snapshot's: [renderQuilt]'s guard regenerated them. *)
Lemma loadQuilt_present_patterns_regenerated :
  let ps := [{| type := solid; colors := ["#ff0000"]; rotation := Some 0 |}] in
  let q := {| qd_patterns := Some ps; qd_library := None;
              qd_gridConfig := None; savedAt := "2024-01-01T00:00:00.000Z" |} in
  let r := run (loadQuilt landscape_window (Some (document q)) started_session) in
  r.2 = Some loaded_successfully ∧
  gridConfig r.1 = gridConfig started_session ∧
  length (patterns r.1) = 48%nat ∧
  patterns r.1 ≠ ps.
Proof. vm_compute. repeat split; congruence. Qed.

(** C6, amended: a text that does not parse gives an error alert and
    leaves the state unchanged.  For a parsed snapshot with valid patterns
    and library entries, the load succeeds and: the library and the grid
    configuration are the snapshot's if present there and unchanged if
    absent; the patterns are unchanged if absent, and are the snapshot's
    if present with as many entries as the current grid has cells
    ([gridConfig.rows * gridConfig.cols] of the session that loads). *)
Theorem loadQuilt_tolerant (w : Window) (st : State) (t : Tape) :
  isPortrait w = true ∨
    (1 ≤ GridConfig.rows (gridConfig st) ∧ 1 ≤ GridConfig.cols (gridConfig st)) →
  (∀ message,
     loadQuilt w (Some (unparsable message)) st t =
       ((st, Some (error_loading (SyntaxError message))), t)) ∧
  (∀ q,
     forallb valid (default [] (qd_patterns q)) = true →
     forallb valid (default [] (qd_library q)) = true →
     let r := (loadQuilt w (Some (document q)) st t).1 in
     r.2 = Some loaded_successfully ∧
     library r.1 = match qd_library q with Some l => l | None => library st end ∧
     gridConfig r.1 =
       match qd_gridConfig q with Some gc => gc | None => gridConfig st end ∧
     match qd_patterns q with
     | None => patterns r.1 = patterns st
     | Some ps =>
         Z.of_nat (length ps) =
           GridConfig.rows (gridConfig st) * GridConfig.cols (gridConfig st) →
         patterns r.1 = ps
     end).
Proof.
  intros Hgc. split; [done|]. intros q Hps Hlib r. subst r.
  destruct (onload_document w q st t Hps Hlib Hgc) as (Ha & Hl & Hg & Hn & Hs).
  unfold loadQuilt, rand_bind, rand_ret.
  destruct (onload w (document q) st t) as [[st1 a] t1]. simpl in *.
  rewrite Ha, Hl, Hg. split; [done|]. split; [by destruct (qd_library q)|].
  split; [by destruct (qd_gridConfig q)|].
  destruct (qd_patterns q) as [ps|]; [by apply Hs|by apply Hn].
Qed.

Lemma loadQuilt_tolerant_witness :
  let l := [{| type := checkerboard; colors := ["#ff0000"; "#0000ff"];
              rotation := Some 0 |}] in
  let q := {| qd_patterns := None; qd_library := Some l;
              qd_gridConfig := None; savedAt := "2024-01-01T00:00:00.000Z" |} in
  let r := run (loadQuilt landscape_window (Some (document q)) started_session) in
  library r.1 = l ∧ patterns r.1 = patterns started_session ∧
  gridConfig r.1 = gridConfig started_session.
Proof.
  intros l q r.
  destruct (loadQuilt_tolerant landscape_window started_session sample_tape)
    as [_ H]; [right; vm_compute; split; congruence|].
  destruct (H q) as (_ & Hl & Hg & Hp); [reflexivity..|].
  split; [exact Hl|]. split; [exact Hp|exact Hg].
Defined.

(** Saving a session and loading the file into a session whose grid has
    as many cells gives back the patterns, the library and the grid
    configuration that were saved. *)
Lemma save_load_same_cell_count (w : Window) (now : Z) (iso : string)
    (saved st : State) (t : Tape) :
  forallb valid (patterns saved) = true →
  forallb valid (library saved) = true →
  isPortrait w = true ∨
    (1 ≤ GridConfig.rows (gridConfig st) ∧ 1 ≤ GridConfig.cols (gridConfig st)) →
  Z.of_nat (length (patterns saved)) =
    GridConfig.rows (gridConfig st) * GridConfig.cols (gridConfig st) →
  let r := (loadQuilt w (Some (saveQuilt now iso saved).2) st t).1 in
  r.2 = Some loaded_successfully ∧
  patterns r.1 = patterns saved ∧ library r.1 = library saved ∧
  gridConfig r.1 = gridConfig saved.
Proof.
  intros Hps Hlib Hgc Hlen r. subst r. unfold saveQuilt, loadQuilt.
  cbn [snd].
  set (q := {| qd_patterns := Some (patterns saved);
               qd_library := Some (library saved);
               qd_gridConfig := Some (gridConfig saved); savedAt := iso |}).
  destruct (onload_document w q st t Hps Hlib Hgc) as (Ha & Hl & Hg & _ & Hs).
  unfold rand_bind, rand_ret.
  destruct (onload w (document q) st t) as [[st1 a] t1]. simpl in *.
  rewrite Ha, Hl, Hg. split; [done|]. split; [by apply Hs|done].
Qed.

(** C5: the code departs from the claim.  The 2 by 3 session is saved and
    the file is loaded into the running 6 by 8 session: the load reports
    success and restores the library and the grid configuration, but the
    six saved patterns are lost, replaced by 48 fresh ones, because
    [renderQuilt] runs on the restored patterns before the grid
    configuration of the file is restored. *)
Theorem save_load_loses_patterns_of_other_grid_size :
  let file := (saveQuilt 1700000000000 "2023-11-14T22:13:20.000Z" small_session).2 in
  let r := run (loadQuilt landscape_window (Some file) started_session) in
  r.2 = Some loaded_successfully ∧
  gridConfig small_session = GridConfig.mk 2 3 ∧
  gridConfig started_session = GridConfig.mk 6 8 ∧
  gridConfig r.1 = gridConfig small_session ∧
  library r.1 = library small_session ∧
  length (patterns small_session) = 6%nat ∧
  forallb valid (patterns small_session) = true ∧
  length (patterns r.1) = 48%nat ∧
  patterns r.1 ≠ patterns small_session.
Proof. vm_compute. repeat split; congruence. Qed.

(** ** Raster renderer against style renderer *)

(** For seven of the nine types the raster drawing at the export size
    fills exactly the regions of the style, with the same colour slots. *)
Lemma raster_agrees_with_style_exact (p : Pattern) :
  valid p = true → type p ≠ ninepatch → type p ≠ flyinggeese →
  raster_agrees_with_style 100 p = true.
Proof.
  unfold valid. intros Hv%bool_decide_eq_true Hn Hf.
  destruct p as [k cs r]. simpl in *.
  destruct k; try done; simpl in Hv;
    repeat (destruct cs as [|? cs]; try done).
Qed.

(** The same holds at other sizes, for instance 37 and 250 pixels. *)
Lemma raster_agrees_with_style_other_sizes :
  forallb (λ k, raster_agrees_with_style 37
                  {| type := k; colors := replicate (numColors k) "#000000";
                     rotation := None |}
                && raster_agrees_with_style 250
                  {| type := k; colors := replicate (numColors k) "#000000";
                     rotation := None |})
          [solid; horizontal; vertical; diagonal; checkerboard; quartersquare;
           pinwheel] = true.
Proof. vm_compute. reflexivity. Qed.

(** Nine patch: the nine cells carry the same colour slots in both
    renderers; the style writes the thirds of the box as 33.33 and 33.34,
    so its cells lie within 0.01 units of the raster's exact thirds and
    are not the same rectangles. *)
Lemma ninepatch_cells_within_rounding (p : Pattern) :
  valid p = true → type p = ninepatch →
  length (style_painted p) = 9%nat ∧
  list_eqb (rect_close (1 # 100)) (style_painted p) (raster_painted p) = true ∧
  raster_agrees_with_style 100 p = false.
Proof.
  unfold valid. intros Hv%bool_decide_eq_true Hn.
  destruct p as [k cs r]. simpl in *. subst k. simpl in Hv.
  repeat (destruct cs as [|? cs]; try done).
Qed.

(** Flying geese: the two geese and the two background triangles on the
    left are the same polygons in both renderers. *)
Lemma flyinggeese_left_agrees (p : Pattern) :
  valid p = true → type p = flyinggeese →
  ∀ i, i ∈ [0; 1; 2; 4]%nat →
    ∃ s r, style_painted p !! i = Some s ∧ raster_painted p !! i = Some r ∧
           painted_eqb s r = true.
Proof.
  unfold valid. intros Hv%bool_decide_eq_true Hn i Hi.
  destruct p as [k cs r]. simpl in *. subst k. simpl in Hv.
  repeat (destruct cs as [|? cs]; try done).
  repeat (apply elem_of_cons in Hi as [Hi|Hi]; [subst i; eexists _, _;
    split; [vm_compute; reflexivity|split; vm_compute; reflexivity]|]).
  by apply elem_of_nil in Hi.
Qed.

(** C9: the code departs from the claim on flying geese.  For a valid
    flying geese pattern the raster drawing does not fill the regions of
    the style: the style's top right background triangle is (50,0)
    (100,0) (100,50) and its bottom right one (50,100) (100,100) (100,50),
    while the raster draws (50,0) (100,0) (50,50) and (50,100) (100,100)
    (50,50), both with [colors[2]]. *)
Theorem flyinggeese_raster_differs_from_style :
  valid sample_geese = true ∧
  raster_agrees_with_style 100 sample_geese = false ∧
  (painted_eqb (region_polygon [(50, 0); (100, 0); (100, 50)]%Q, Some 2)
     <$> style_painted sample_geese !! 3%nat) = Some true ∧
  (painted_eqb (region_polygon [(50, 0); (100, 0); (50, 50)]%Q, Some 2)
     <$> raster_painted sample_geese !! 3%nat) = Some true ∧
  (painted_eqb (region_polygon [(50, 100); (100, 100); (100, 50)]%Q, Some 2)
     <$> style_painted sample_geese !! 5%nat) = Some true ∧
  (painted_eqb (region_polygon [(50, 100); (100, 100); (50, 50)]%Q, Some 2)
     <$> raster_painted sample_geese !! 5%nat) = Some true.
Proof. vm_compute. repeat split. Qed.

(** * Further properties of the code *)

(** ** Square size *)

(** X1: [calculateSquareSize] never returns an infinite size or one
    outside 30..100; it returns NaN only when a grid dimension is zero
    and the space for it is exactly the 20 pixels of margin. *)
Theorem calculateSquareSize_range (w : Window) (st : State) :
  match calculateSquareSize w st with
  | Finite s => 30 ≤ s ≤ 100
  | NaN => (rows st = 0 ∧ (available w).1 = 20) ∨
           (cols st = 0 ∧ (available w).2 = 20)
  | NegInfinity | PosInfinity => False
  end.
Proof.
  unfold calculateSquareSize, floor_quotient.
  destruct (available w) as [h wd]. simpl.
  destruct (Z.eqb_spec (rows st) 0), (Z.eqb_spec (cols st) 0);
    repeat match goal with
           | |- context [?a =? 0] => destruct (Z.eqb_spec a 0)
           | |- context [0 <? ?a] => destruct (Z.ltb_spec 0 a)
           end; simpl; lia.
Qed.

(** X2: for a grid of at least one row and column the size is the
    largest one up to 100 whose squares fit the available height and
    width, unless that is below the minimum of 30. *)
Theorem calculateSquareSize_fits (w : Window) (st : State) :
  1 ≤ rows st → 1 ≤ cols st →
  ∃ s, calculateSquareSize w st = Finite s ∧ 30 ≤ s ≤ 100 ∧
       (30 < s → s * rows st ≤ (available w).1 - 20 ∧
                 s * cols st ≤ (available w).2 - 20) ∧
       (30 ≤ s < 100 → (available w).1 - 20 < (s + 1) * rows st ∨
                       (available w).2 - 20 < (s + 1) * cols st).
Proof.
  intros HR HC. unfold calculateSquareSize, floor_quotient.
  destruct (available w) as [h wd]. simpl.
  destruct (Z.eqb_spec (rows st) 0); [lia|].
  destruct (Z.eqb_spec (cols st) 0); [lia|]. simpl.
  eexists. split; [done|].
  pose proof (Z.mul_div_le (h - 20) (rows st) ltac:(lia)).
  pose proof (Z.mul_div_le (wd - 20) (cols st) ltac:(lia)).
  pose proof (Z.mul_succ_div_gt (h - 20) (rows st) ltac:(lia)).
  pose proof (Z.mul_succ_div_gt (wd - 20) (cols st) ltac:(lia)).
  split; [lia|]. split; intros Hs.
  - split; nia.
  - destruct (Z.le_gt_cases ((h - 20) / rows st) ((wd - 20) / cols st));
      [left|right]; nia.
Qed.

Lemma calculateSquareSize_fits_witness :
  calculateSquareSize landscape_window started_session = Finite 100.
Proof.
  destruct (calculateSquareSize_fits landscape_window started_session)
    as (s & Hs & _); [vm_compute; congruence..|].
  rewrite Hs. vm_compute in Hs. congruence.
Defined.

(** ** Orientation *)

Lemma updateOrientation_fits_viewport_aux (w : Window) (st : State) :
  let gc := gridConfig st in
  rows (updateOrientation w st) =
    (if isPortrait w then Z.max else Z.min) (GridConfig.rows gc) (GridConfig.cols gc) ∧
  cols (updateOrientation w st) =
    (if isPortrait w then Z.min else Z.max) (GridConfig.rows gc) (GridConfig.cols gc).
Proof.
  unfold updateOrientation.
  destruct (isPortrait w);
    destruct (Z.ltb_spec (GridConfig.rows (gridConfig st))
                         (GridConfig.cols (gridConfig st)));
    simpl; split; lia.
Qed.

(** X3: [updateOrientation] turns the grid to the viewport: on a portrait
    viewport the displayed grid has at least as many rows as columns, on
    a landscape viewport at least as many columns as rows.  It only
    orders the two configured dimensions, so the cell count is the
    configured one, and a second call changes nothing. *)
Theorem updateOrientation_fits_viewport (w : Window) (st : State) :
  let st' := updateOrientation w st in
  let gc := gridConfig st in
  (if isPortrait w then cols st' ≤ rows st' else rows st' ≤ cols st') ∧
  rows st' = (if isPortrait w then Z.max else Z.min)
               (GridConfig.rows gc) (GridConfig.cols gc) ∧
  cols st' = (if isPortrait w then Z.min else Z.max)
               (GridConfig.rows gc) (GridConfig.cols gc) ∧
  rows st' * cols st' = GridConfig.rows gc * GridConfig.cols gc ∧
  updateOrientation w st' = st'.
Proof.
  unfold updateOrientation.
  destruct (isPortrait w);
    destruct (Z.ltb_spec (GridConfig.rows (gridConfig st))
                         (GridConfig.cols (gridConfig st))) as [Hlt|Hge];
    simpl; rewrite ?(proj2 (Z.ltb_lt _ _) Hlt), ?(proj2 (Z.ltb_ge _ _) Hge);
    simpl; repeat split; lia.
Qed.

(** ** Pattern array *)

(** X4: [initializeColors] fills [patterns] with exactly [rows * cols]
    patterns (none when the product is not positive), each valid and with
    rotation 0, and leaves the grid, the library and the configuration
    alone. *)
Theorem initializeColors_fresh (st : State) (t : Tape) :
  let st' := (initializeColors st t).1 in
  length (patterns st') = Z.to_nat (rows st * cols st) ∧
  Forall (λ p, valid p = true ∧ rotation p = Some 0) (patterns st') ∧
  rows st' = rows st ∧ cols st' = cols st ∧ library st' = library st ∧
  gridConfig st' = gridConfig st.
Proof.
  unfold initializeColors, rand_bind, rand_ret.
  pose proof (rand_repeat_length (Z.to_nat (rows st * cols st))
                createRandomPattern t) as Hlen.
  pose proof (rand_repeat_Forall (λ p, valid p = true ∧ rotation p = Some 0)
                (Z.to_nat (rows st * cols st)) createRandomPattern t
                createRandomPattern_valid) as Hval.
  destruct (rand_repeat _ _ t) as [ps t']. simpl in *. done.
Qed.

Lemma set_patterns_same (st : State) : set_patterns st (patterns st) = st.
Proof. by destruct st. Qed.

Lemma updateOrientation_same (w : Window) (st st' : State) :
  gridConfig st' = gridConfig st →
  rows st' = rows (updateOrientation w st) →
  cols st' = cols (updateOrientation w st) →
  updateOrientation w st' = st'.
Proof.
  intros Hg Hr Hc. destruct st' as [r c ps l g]. simpl in *. subst.
  unfold updateOrientation. simpl. by destruct (_ || _).
Qed.

(** A render of an already rendered state at a viewport of the same
    orientation leaves the state and draws no random number. *)
Lemma renderQuilt_again (w w' : Window) (st : State) (t t' : Tape) :
  isPortrait w' = isPortrait w →
  let st1 := (renderQuilt w st t).1.1 in
  (renderQuilt w' st1 t').1.1 = st1 ∧ (renderQuilt w' st1 t').2 = t'.
Proof.
  intros Hw st1.
  destruct (renderQuilt_grid w st t) as (Hg & _ & Hrc & Hn & Hlen).
  fold st1 in Hg, Hrc, Hn, Hlen. injection Hrc as Hr Hc.
  assert (updateOrientation w' st1 = st1) as Huo.
  { apply (updateOrientation_same w' st); [done|..];
      unfold updateOrientation; rewrite Hw; [exact Hr|exact Hc]. }
  rewrite <-Hg in Hn.
  destruct (decide (0 ≤ rows st1 * cols st1)) as [Hpos|Hneg].
  - split.
    + rewrite renderQuilt_state, bool_decide_eq_true_2 by lia. done.
    + apply renderQuilt_tape_kept. lia.
  - assert (patterns st1 = []) as Hnil.
    { apply length_zero_iff_nil. lia. }
    assert (Z.to_nat (rows st1 * cols st1) = 0%nat) as Hz by lia.
    split.
    + rewrite renderQuilt_state, bool_decide_eq_false_2 by lia.
      rewrite Huo. unfold initializeColors, rand_bind, rand_ret.
      rewrite Hz. simpl. rewrite <-Hnil. apply set_patterns_same.
    + unfold renderQuilt, rand_bind, rand_ret. rewrite Huo.
      rewrite bool_decide_eq_true_2 by lia.
      unfold initializeColors, rand_bind, rand_ret. rewrite Hz. done.
Qed.

(** X5: [renderQuilt] is idempotent: rendering again at the same viewport
    leaves the state as it is, draws no random number and builds the same
    grid. *)
Theorem renderQuilt_idempotent (w : Window) (st : State) (t t' : Tape) :
  let r1 := renderQuilt w st t in
  let r2 := renderQuilt w r1.1.1 t' in
  r2.1.1 = r1.1.1 ∧ r2.1.2 = r1.1.2 ∧ r2.2 = t'.
Proof.
  intros r1 r2.
  destruct (renderQuilt_again w w st t t' eq_refl) as [Hst Ht].
  fold r1 in Hst, Ht. fold r2 in Hst, Ht.
  split; [done|]. split; [|done].
  subst r2. rewrite renderQuilt_display, Hst.
  subst r1. by rewrite renderQuilt_display.
Qed.


(** X7: on a square grid of side [n] the rotation mapping applied twice
    is the half turn: it sends index [i] to [n*n - 1 - i] (so four
    applications give back [i]). *)
Theorem landscapeToPortrait_twice_square (n i : Z) :
  1 ≤ n → 0 ≤ i < n * n →
  landscapeToPortrait (GridConfig.mk n n) i
    ≫= landscapeToPortrait (GridConfig.mk n n) = Some (n * n - 1 - i).
Proof.
  intros Hn Hi.
  rewrite landscapeToPortrait_eq by (simpl; lia). simpl.
  pose proof (Z.mod_pos_bound i n ltac:(lia)).
  assert (0 ≤ i / n < n).
  { split; [apply Z.div_pos; lia|apply Z.div_lt_upper_bound; lia]. }
  rewrite landscapeToPortrait_eq by (simpl; nia). simpl.
  assert ((i mod n * n + (n - 1 - i / n)) / n = i mod n) as ->
    by (symmetry; apply (Z.div_unique_pos _ n _ (n - 1 - i / n)); lia).
  assert ((i mod n * n + (n - 1 - i / n)) mod n = n - 1 - i / n) as ->
    by (symmetry; apply (Z.mod_unique_pos _ n (i mod n)); lia).
  f_equal. pose proof (Z.div_mod i n ltac:(lia)). nia.
Qed.

Lemma landscapeToPortrait_twice_square_witness :
  landscapeToPortrait (GridConfig.mk 4 4) 5
    ≫= landscapeToPortrait (GridConfig.mk 4 4) = Some 10.
Proof.
  apply (landscapeToPortrait_twice_square 4 5); lia.
Defined.

(** ** Styles and colours *)

(** X8: [getPatternStyle] throws exactly when a colour that it escapes
    for the SVG image is missing: a checkerboard or pinwheel with fewer
    than 2 colours, a quarter square with fewer than 4, flying geese with
    fewer than 3.  Solid, striped and nine patch patterns never throw,
    whatever their colours. *)
Theorem getPatternStyle_throws_iff (p : Pattern) :
  getPatternStyle p = None ↔
  (length (colors p) <
     match type p with
     | checkerboard | pinwheel => 2
     | quartersquare => 4
     | flyinggeese => 3
     | solid | horizontal | vertical | diagonal | ninepatch => 0
     end)%nat.
Proof.
  destruct p as [k cs r]. unfold getPatternStyle, escaped. simpl.
  destruct k; simpl; try (split; [done|lia]);
    repeat (destruct cs as [|? cs]; simpl; try (split; [done|lia]);
            try (split; [lia|done])).
Qed.

Lemma floor_scale_range (r : Q) (n : Z) :
  (0 <= r)%Q → (r < 1)%Q → 0 < n → 0 ≤ JS.floor_scale r n < n.
Proof.
  intros H0 H1 Hn. unfold JS.floor_scale.
  assert (0 <= inject_Z n)%Q as Hn0 by (unfold Qle; simpl; lia).
  split.
  - change 0 with (Qfloor 0). apply Qfloor_resp_le.
    by apply Qmult_le_0_compat.
  - assert (r * inject_Z n < inject_Z n)%Q as Hlt.
    { rewrite <-(Qmult_1_l (inject_Z n)) at 2.
      apply Qmult_lt_compat_r; [unfold Qlt; simpl; lia|done]. }
    pose proof (Qfloor_le (r * inject_Z n)) as Hle.
    rewrite Zlt_Qlt. exact (Qle_lt_trans _ _ _ Hle Hlt).
Qed.

(** X9: when the three random numbers it draws lie in [0, 1), as those
    of [Math.random()] do, [getRandomColor] returns [hsl(h, s%, l%)]
    with hue [0 <= h < 360], saturation [60 <= s < 90] and lightness
    [60 <= l < 80]. *)
Theorem getRandomColor_pastel (t : Tape) :
  (∀ n, (n < 3)%nat → (0 <= t n)%Q ∧ (t n < 1)%Q) →
  ∃ h s l, (getRandomColor t).1 =
             "hsl(" +:+ pretty h +:+ ", " +:+ pretty s +:+ "%, "
                    +:+ pretty l +:+ "%)" ∧
           0 ≤ h < 360 ∧ 60 ≤ s < 90 ∧ 60 ≤ l < 80.
Proof.
  intros Ht.
  destruct (Ht 0%nat) as [Ha0 Ha1]; [lia|].
  destruct (Ht 1%nat) as [Hb0 Hb1]; [lia|].
  destruct (Ht 2%nat) as [Hc0 Hc1]; [lia|].
  exists (JS.floor_scale (t 0%nat) 360), (60 + JS.floor_scale (t 1%nat) 30),
         (60 + JS.floor_scale (t 2%nat) 20).
  split; [reflexivity|].
  pose proof (floor_scale_range (t 0%nat) 360 Ha0 Ha1 ltac:(lia)).
  pose proof (floor_scale_range (t 1%nat) 30 Hb0 Hb1 ltac:(lia)).
  pose proof (floor_scale_range (t 2%nat) 20 Hc0 Hc1 ltac:(lia)).
  lia.
Qed.

Lemma getRandomColor_pastel_witness :
  (getRandomColor sample_tape).1 = "hsl(39, 74%, 77%)".
Proof.
  destruct (getRandomColor_pastel sample_tape) as (h & s & l & Hc & _).
  { intros n Hn. destruct n as [|[|[|n]]]; [vm_compute; split; congruence..|lia]. }
  reflexivity.
Defined.

(** ** Library *)

Lemma updateColorPickers_defaults (type : PatternType) :
  updateColorPickers type = defaultColors type.
Proof. by destruct type. Qed.

(** X10: the picker that [updateColorPickers] builds holds the default
    colours of the type, as many as the type needs; a pattern added from
    a picker of that many inputs (whatever colours the user has set) goes
    to the end of the library with rotation 0, is valid and has a style,
    so a library that could be rendered still can; the entries before it
    and the quilt are unchanged. *)
Theorem addPatternToLibrary_valid (type : PatternType) (picker : list string)
    (st : State) :
  length picker = length (updateColorPickers type) →
  let st' := addPatternToLibrary type picker st in
  let p := {| type := type; colors := picker; rotation := Some 0 |} in
  updateColorPickers type = defaultColors type ∧
  library st' = library st ++ [p] ∧
  valid p = true ∧
  (is_Some (renderLibrary st) → is_Some (renderLibrary st')) ∧
  patterns st' = patterns st ∧ gridConfig st' = gridConfig st.
Proof.
  intros Hlen st' p.
  assert (valid p = true) as Hv.
  { unfold valid. apply bool_decide_eq_true. simpl. rewrite Hlen.
    unfold updateColorPickers. by rewrite length_fmap, length_seq. }
  split; [apply updateColorPickers_defaults|]. do 2 (split; [done|]).
  split; [|done].
  unfold renderLibrary. simpl. intros Hl%mapM_is_Some_1.
  apply mapM_is_Some_2, Forall_app. split; [done|].
  constructor; [|constructor]. by apply valid_getPatternStyle.
Qed.

Lemma addPatternToLibrary_valid_witness :
  library (addPatternToLibrary checkerboard sample_picker started_session)
    = [{| type := checkerboard; colors := sample_picker; rotation := Some 0 |}].
Proof.
  destruct (addPatternToLibrary_valid checkerboard sample_picker started_session)
    as (_ & Hl & _); [reflexivity|].
  exact Hl.
Defined.

(** X11: deleting the item that was just added gives back the state
    before the addition. *)
Theorem deleteLibraryItem_addPatternToLibrary (type : PatternType)
    (picker : list string) (st : State) :
  deleteLibraryItem (length (library st)) (addPatternToLibrary type picker st)
    = st.
Proof.
  unfold deleteLibraryItem, addPatternToLibrary. destruct st as [r c ps l g].
  unfold set_library. simpl. f_equal.
  rewrite delete_middle. apply app_nil_r.
Qed.

(** X12: the delete button of item [index] removes that item only: the
    library is one shorter, the items before [index] stay in place and
    the items after it move up by one; the quilt is unchanged. *)
Theorem deleteLibraryItem_frame (index : nat) (st : State) :
  (index < length (library st))%nat →
  let st' := deleteLibraryItem index st in
  S (length (library st')) = length (library st) ∧
  (∀ j, (j < index)%nat → library st' !! j = library st !! j) ∧
  (∀ j, (index ≤ j)%nat → library st' !! j = library st !! S j) ∧
  patterns st' = patterns st ∧ gridConfig st' = gridConfig st.
Proof.
  intros Hi st'. subst st'. unfold deleteLibraryItem. simpl.
  split; [|split; [|split]].
  - rewrite length_delete by (by apply lookup_lt_is_Some_2). lia.
  - intros j Hj. by apply list_lookup_delete_lt.
  - intros j Hj. by apply list_lookup_delete_ge.
  - done.
Qed.

Lemma deleteLibraryItem_frame_witness :
  library (deleteLibraryItem 0
             (addPatternToLibrary solid ["#000000"]
                (addPatternToLibrary checkerboard sample_picker started_session)))
    !! 0%nat
  = Some {| type := solid; colors := ["#000000"]; rotation := Some 0 |}.
Proof.
  destruct (deleteLibraryItem_frame 0
              (addPatternToLibrary solid ["#000000"]
                 (addPatternToLibrary checkerboard sample_picker started_session)))
    as (_ & _ & H & _); [vm_compute; lia|].
  rewrite (H 0%nat) by lia. reflexivity.
Defined.

(** ** Drag and drop *)

Section Rendered.

(** A state as [renderQuilt] leaves it: as many valid patterns as the
    configured grid has cells; on a landscape viewport the grid has at
    least one row and column. *)
Variable isP : bool.
Variable st : State.
Let gc := gridConfig st.
Let n := GridConfig.rows gc * GridConfig.cols gc.
Hypothesis Hlen : Z.of_nat (length (patterns st)) = n.
Hypothesis Hgc : isP = true ∨ (1 ≤ GridConfig.rows gc ∧ 1 ≤ GridConfig.cols gc).

Lemma displayToPattern_range (i : Z) :
  0 ≤ i < n → ∃ j, displayToPattern isP gc i = Some j ∧ 0 ≤ j < n.
Proof using Hgc.
  intros Hi. unfold displayToPattern. destruct Hgc as [->|[HR HC]].
  - by exists i.
  - destruct isP; simpl; [by exists i|]. by apply landscapeToPortrait_range.
Qed.

Lemma displayToPattern_inj (i d : Z) :
  0 ≤ i < n → 0 ≤ d < n →
  displayToPattern isP gc i = displayToPattern isP gc d → i = d.
Proof using Hgc.
  intros Hi Hd. unfold displayToPattern. destruct Hgc as [->|[HR HC]].
  - simpl. congruence.
  - destruct isP; simpl; [congruence|]. intros Heq.
    destruct (landscapeToPortrait_range gc i HR HC Hi) as (p & Hp & _).
    pose proof (portraitToLandscape_landscapeToPortrait gc i p HR HC Hi Hp).
    rewrite Heq in Hp.
    pose proof (portraitToLandscape_landscapeToPortrait gc d p HR HC Hd Hp).
    congruence.
Qed.

(** The common end of the drop handlers, for a target inside the array. *)
Lemma place_inside (j : Z) (p : Pattern) :
  0 ≤ j < n →
  place (Some j) (Some p) st =
    Some (set_patterns st (<[Z.to_nat j := p]> (patterns st)),
          match applyPatternToElement p with
          | Some e => restyled e
          | None => thrown
          end).
Proof using Hlen.
  intros Hj. unfold place, assign.
  rewrite bool_decide_eq_true_2 by lia. done.
Qed.

(** What a render shows in square [i]: the style of the pattern at the
    mapped index. *)
Lemma shown_element (w : Window) (t : Tape) (i : Z) :
  isPortrait w = isP → forallb valid (patterns st) = true → 0 ≤ i < n →
  element <$> shown (renderQuilt w st t).1.2 i =
    (j ← displayToPattern isP gc i;
     p ← patterns st !! Z.to_nat j;
     applyPatternToElement p).
Proof using Hlen Hgc.
  intros Hw Hv Hi. subst isP.
  destruct (renderQuilt_squares w st t Hv Hgc) as (d & Hd & _ & _ & Hsq).
  destruct (renderQuilt_grid w st t) as (_ & _ & _ & Hn & _).
  pose proof (renderQuilt_state w st t) as Hst. simpl in Hst.
  rewrite bool_decide_eq_true_2 in Hst by done.
  destruct (updateOrientation_spec w st) as (Hp & _).
  destruct (Hsq i) as (sq & p & Hsqi & Hidx & _ & Hpi & He); [by rewrite Hn|].
  rewrite Hst, Hp in Hpi.
  unfold shown. rewrite Hd. simpl. rewrite Hsqi. fold gc in Hidx.
  rewrite Hidx. simpl. rewrite Hpi. simpl. by rewrite He.
Qed.

End Rendered.

Lemma valid_lookup (ps : list Pattern) (j : nat) (p : Pattern) :
  forallb valid ps = true → ps !! j = Some p → valid p = true.
Proof.
  intros Hv%forallb_valid_Forall Hp.
  by eapply (proj1 (Forall_lookup _ _) Hv).
Qed.

Lemma valid_insert (ps : list Pattern) (j : nat) (p : Pattern) :
  forallb valid ps = true → valid p = true →
  forallb valid (<[j := p]> ps) = true.
Proof.
  intros Hv%forallb_valid_Forall Hp. apply forallb_valid_Forall.
  by apply Forall_insert.
Qed.

(** X13: dropping square [d] on another square [i] copies and does not
    move: the entry of [patterns] that square [i] reads becomes the
    pattern that square [d] reads, which stays where it is; the two
    entries are different ones, every other entry, the length, the
    library and the grid configuration are unchanged. *)
Theorem drop_copies_square (isP : bool) (i d : Z) (st : State) :
  let n := GridConfig.rows (gridConfig st) * GridConfig.cols (gridConfig st) in
  Z.of_nat (length (patterns st)) = n →
  isP = true ∨
    (1 ≤ GridConfig.rows (gridConfig st) ∧ 1 ≤ GridConfig.cols (gridConfig st)) →
  0 ≤ i < n → 0 ≤ d < n → d ≠ i →
  ∃ target source p st' o,
    displayToPattern isP (gridConfig st) i = Some target ∧
    displayToPattern isP (gridConfig st) d = Some source ∧
    target ≠ source ∧
    patterns st !! Z.to_nat source = Some p ∧
    drop isP i None (Some d) st = Some (st', o) ∧
    patterns st' !! Z.to_nat target = Some p ∧
    patterns st' !! Z.to_nat source = Some p ∧
    (∀ j, j ≠ Z.to_nat target → patterns st' !! j = patterns st !! j) ∧
    length (patterns st') = length (patterns st) ∧
    library st' = library st ∧ gridConfig st' = gridConfig st.
Proof.
  intros n Hlen Hgc Hi Hd Hne.
  destruct (displayToPattern_range isP st Hgc i Hi) as (tg & Htg & Htr).
  destruct (displayToPattern_range isP st Hgc d Hd) as (sr & Hsr & Hsrr).
  destruct (lookup_lt_is_Some_2 (patterns st) (Z.to_nat sr)) as [p Hp]; [lia|].
  assert (tg ≠ sr) as Hts.
  { intros ->. apply Hne. apply (displayToPattern_inj isP st Hgc); [done..|].
    congruence. }
  exists tg, sr, p. eexists _, _. do 4 (split; [done|]).
  split.
  { unfold drop. rewrite bool_decide_eq_true_2 by done.
    rewrite Htg, Hsr. simpl. unfold JS.index.
    destruct (Z.leb_spec 0 sr); [|lia]. rewrite Hp. unfold copy_of.
    by apply place_inside. }
  simpl. split; [apply list_lookup_insert_eq; lia|].
  split; [rewrite list_lookup_insert_ne by lia; done|].
  split; [intros j Hj; by apply list_lookup_insert_ne|].
  split; [apply length_insert|done].
Qed.

Lemma drop_copies_square_witness :
  ∃ st' o, drop false 0 None (Some 5) started_session = Some (st', o) ∧
           patterns st' !! 7%nat = patterns started_session !! 47%nat.
Proof.
  destruct (drop_copies_square false 0 5 started_session)
    as (tg & sr & p & st' & o & Htg & Hsr & _ & Hp & Hdrop & Ht & _);
    [vm_compute; done|right; vm_compute; split; congruence|
     vm_compute; split; congruence|vm_compute; split; congruence|done|].
  exists st', o. split; [exact Hdrop|].
  vm_compute in Htg, Hsr.
  assert (tg = 7) as -> by congruence. assert (sr = 47) as -> by congruence.
  change (Z.to_nat 7) with 7%nat in Ht. change (Z.to_nat 47) with 47%nat in Hp.
  by rewrite Ht, Hp.
Defined.

(** X14: after square [d] is dropped on square [i] and the quilt is
    rendered again at the same viewport, square [i] looks as square [d]
    did, and every other square, square [d] included, looks as before. *)
Theorem drop_then_render (w : Window) (i d : Z) (st : State) (t t' : Tape) :
  let n := GridConfig.rows (gridConfig st) * GridConfig.cols (gridConfig st) in
  Z.of_nat (length (patterns st)) = n →
  forallb valid (patterns st) = true →
  isPortrait w = true ∨
    (1 ≤ GridConfig.rows (gridConfig st) ∧ 1 ≤ GridConfig.cols (gridConfig st)) →
  0 ≤ i < n → 0 ≤ d < n → d ≠ i →
  ∃ st' e,
    drop (isPortrait w) i None (Some d) st = Some (st', restyled e) ∧
    let before := (renderQuilt w st t).1.2 in
    let after := (renderQuilt w st' t').1.2 in
    element <$> shown before d = Some e ∧
    element <$> shown after i = Some e ∧
    ∀ j, 0 ≤ j < n → j ≠ i →
      element <$> shown after j = element <$> shown before j.
Proof.
  intros n Hlen Hv Hgc Hi Hd Hne.
  destruct (drop_copies_square (isPortrait w) i d st Hlen Hgc Hi Hd Hne)
    as (tg & sr & p & st' & o & Htg & Hsr & Hts & Hp & Hdrop & Ht & Hs & Ho
        & Hl & _ & Hg).
  assert (valid p = true) as Hvp by by eapply valid_lookup.
  destruct (valid_getPatternStyle p Hvp) as [s Hstyle].
  assert (applyPatternToElement p
          = Some {| background := s; transform_rotate := rotation_or_0 p |})
    as He by (unfold applyPatternToElement; by rewrite Hstyle).
  assert (0 ≤ tg < n) as Htgr.
  { destruct (displayToPattern_range (isPortrait w) st Hgc i Hi) as (tg' & Htg' & Hr).
    by assert (tg' = tg) as -> by congruence. }
  assert (patterns st' = <[Z.to_nat tg := p]> (patterns st)
          ∧ o = restyled {| background := s; transform_rotate := rotation_or_0 p |})
    as [Hps ->].
  { destruct (displayToPattern_range (isPortrait w) st Hgc i Hi) as (tg' & Htg' & Hr).
    assert (tg' = tg) as -> by congruence.
    unfold drop in Hdrop. rewrite bool_decide_eq_true_2 in Hdrop by done.
    rewrite Htg, Hsr in Hdrop. simpl in Hdrop. unfold JS.index in Hdrop.
    destruct (displayToPattern_range (isPortrait w) st Hgc d Hd) as (sr' & Hsr' & Hr').
    assert (sr' = sr) as -> by congruence.
    destruct (Z.leb_spec 0 sr); [|lia]. rewrite Hp in Hdrop. unfold copy_of in Hdrop.
    rewrite (place_inside st Hlen tg p Hr), He in Hdrop.
    injection Hdrop as <- <-. done. }
  eexists _, _. split; [exact Hdrop|]. intros before after.
  assert (Z.of_nat (length (patterns st')) =
          GridConfig.rows (gridConfig st') * GridConfig.cols (gridConfig st'))
    as Hlen' by (rewrite Hl, Hg; exact Hlen).
  assert (forallb valid (patterns st') = true) as Hv'
    by (rewrite Hps; by apply valid_insert).
  assert (isPortrait w = true ∨
          (1 ≤ GridConfig.rows (gridConfig st') ∧ 1 ≤ GridConfig.cols (gridConfig st')))
    as Hgc' by (by rewrite Hg).
  subst before after.
  split; [|split].
  - rewrite (shown_element (isPortrait w) st Hlen Hgc w t d eq_refl Hv Hd).
    rewrite Hsr. simpl. rewrite Hp. simpl. exact He.
  - rewrite (shown_element (isPortrait w) st' Hlen' Hgc' w t' i eq_refl Hv');
      [|by rewrite Hg].
    rewrite Hg, Htg. simpl. rewrite Ht. simpl. exact He.
  - intros j Hj Hji.
    rewrite (shown_element (isPortrait w) st' Hlen' Hgc' w t' j eq_refl Hv');
      [|by rewrite Hg].
    rewrite (shown_element (isPortrait w) st Hlen Hgc w t j eq_refl Hv Hj).
    rewrite Hg.
    destruct (displayToPattern_range (isPortrait w) st Hgc j Hj) as (k & Hk & Hkr).
    rewrite Hk. simpl. rewrite Ho; [done|].
    intros Heq. apply Hji.
    apply (displayToPattern_inj (isPortrait w) st Hgc); [done..|].
    rewrite Hk, Htg. f_equal. lia.
Qed.

Lemma drop_then_render_witness :
  ∃ st' e,
    drop false 0 None (Some 5) started_session = Some (st', restyled e) ∧
    element <$> shown (run (renderQuilt landscape_window st')).2 0 = Some e.
Proof.
  destruct (drop_then_render landscape_window 0 5 started_session
              sample_tape sample_tape)
    as (st' & e & Hdrop & _ & H & _);
    [vm_compute; done|reflexivity|right; vm_compute; split; congruence|
     vm_compute; split; congruence|vm_compute; split; congruence|done|].
  exists st', e. split; [exact Hdrop|exact H].
Defined.

(** X15: after library item [k], a valid pattern, is dropped on square
    [i] and the quilt is rendered again at the same viewport, square [i]
    shows that pattern and every other square looks as before; the
    library is unchanged. *)
Theorem drop_from_library_then_render (w : Window) (i k : Z)
    (draggedIndex : option Z) (p : Pattern) (st : State) (t t' : Tape) :
  let n := GridConfig.rows (gridConfig st) * GridConfig.cols (gridConfig st) in
  Z.of_nat (length (patterns st)) = n →
  forallb valid (patterns st) = true →
  isPortrait w = true ∨
    (1 ≤ GridConfig.rows (gridConfig st) ∧ 1 ≤ GridConfig.cols (gridConfig st)) →
  0 ≤ i < n →
  JS.index (library st) k = Some p → valid p = true →
  ∃ st' e,
    drop (isPortrait w) i (Some k) draggedIndex st = Some (st', restyled e) ∧
    applyPatternToElement p = Some e ∧
    library st' = library st ∧
    let before := (renderQuilt w st t).1.2 in
    let after := (renderQuilt w st' t').1.2 in
    element <$> shown after i = Some e ∧
    ∀ j, 0 ≤ j < n → j ≠ i →
      element <$> shown after j = element <$> shown before j.
Proof.
  intros n Hlen Hv Hgc Hi Hk Hvp.
  destruct (displayToPattern_range (isPortrait w) st Hgc i Hi) as (tg & Htg & Hr).
  destruct (valid_getPatternStyle p Hvp) as [s Hstyle].
  assert (applyPatternToElement p
          = Some {| background := s; transform_rotate := rotation_or_0 p |})
    as He by (unfold applyPatternToElement; by rewrite Hstyle).
  set (st' := set_patterns st (<[Z.to_nat tg := p]> (patterns st))).
  exists st'. eexists. split.
  { unfold drop. rewrite Htg, Hk. unfold copy_of.
    rewrite (place_inside st Hlen tg p Hr), He. done. }
  split; [exact He|]. split; [done|]. intros before after.
  assert (Z.of_nat (length (patterns st')) =
          GridConfig.rows (gridConfig st') * GridConfig.cols (gridConfig st'))
    as Hlen' by (simpl; rewrite length_insert; exact Hlen).
  assert (forallb valid (patterns st') = true) as Hv'
    by (by apply valid_insert).
  subst before after. split.
  - rewrite (shown_element (isPortrait w) st' Hlen' Hgc w t' i eq_refl Hv' Hi).
    simpl. rewrite Htg. simpl. rewrite list_lookup_insert_eq by lia. exact He.
  - intros j Hj Hji.
    rewrite (shown_element (isPortrait w) st' Hlen' Hgc w t' j eq_refl Hv' Hj).
    rewrite (shown_element (isPortrait w) st Hlen Hgc w t j eq_refl Hv Hj).
    simpl.
    destruct (displayToPattern_range (isPortrait w) st Hgc j Hj) as (m & Hm & Hmr).
    rewrite Hm. simpl. rewrite list_lookup_insert_ne; [done|].
    intros Heq. apply Hji. symmetry.
    apply (displayToPattern_inj (isPortrait w) st Hgc); [done..|].
    rewrite Hm, Htg. f_equal. lia.
Qed.

Lemma drop_from_library_then_render_witness :
  let st := addPatternToLibrary checkerboard sample_picker started_session in
  ∃ st' e, drop false 3 (Some 0) None st = Some (st', restyled e) ∧
           element <$> shown (run (renderQuilt landscape_window st')).2 3 = Some e.
Proof.
  intros st.
  destruct (drop_from_library_then_render landscape_window 3 0 None
              {| type := checkerboard; colors := sample_picker; rotation := Some 0 |}
              st sample_tape sample_tape)
    as (st' & e & Hdrop & _ & _ & H & _);
    [vm_compute; done|reflexivity|right; vm_compute; split; congruence|
     vm_compute; split; congruence|reflexivity|reflexivity|].
  exists st', e. split; [exact Hdrop|exact H].
Defined.

(** X16: the touch handlers do what the mouse handler does: lifting the
    finger over square [j] after a drag from square [d] has the effect
    of the [drop] of [d] on [j], on any viewport; lifting it after a drag
    of library item [k] has, on a portrait viewport, the effect of the
    [drop] of that item on [j].  (On a landscape viewport the library
    touch handler stores the pattern at index [j] itself, the mouse
    handler at the mapped index.) *)
Theorem touch_drop_agrees_with_mouse_drop (j d k : Z) (st : State) :
  (∀ isP, touchend isP (Some j) None (Some d) st = drop isP j None (Some d) st) ∧
  library_touchend k (Some j) st = drop true j (Some k) None st.
Proof.
  unfold touchend, library_touchend, drop, displayToPattern. simpl.
  split; [|done]. intros isP. by case_bool_decide.
Qed.

(** ** Rotation on the screen *)

Lemma applyPatternToElement_rotated (p : Pattern) (e : ElementStyle) :
  applyPatternToElement p = Some e →
  applyPatternToElement (rotated p) =
    Some {| background := background e;
            transform_rotate := Z.rem (transform_rotate e + 90) 360 |}.
Proof.
  unfold applyPatternToElement.
  assert (getPatternStyle (rotated p) = getPatternStyle p) as -> by done.
  destruct (getPatternStyle p) as [s|]; [|done]. simpl. by intros [= <-].
Qed.

Lemma valid_rotated (p : Pattern) : valid (rotated p) = valid p.
Proof. done. Qed.

(** X17: on a portrait viewport a double click on square [i] turns the
    square that was clicked: after [rotatePattern(i)] square [i] has the
    same background and its rotation advanced by 90 degrees modulo 360,
    and every other square looks as before. *)
Theorem rotatePattern_turns_clicked_square (w : Window) (i : Z) (st : State)
    (t : Tape) :
  let n := GridConfig.rows (gridConfig st) * GridConfig.cols (gridConfig st) in
  isPortrait w = true →
  Z.of_nat (length (patterns st)) = n →
  forallb valid (patterns st) = true →
  0 ≤ i < n →
  let before := (renderQuilt w st t).1.2 in
  let after := (rotatePattern w i st t).1.2 in
  ∃ e, element <$> shown before i = Some e ∧
       element <$> shown after i =
         Some {| background := background e;
                 transform_rotate := Z.rem (transform_rotate e + 90) 360 |} ∧
       ∀ j, 0 ≤ j < n → j ≠ i →
         element <$> shown after j = element <$> shown before j.
Proof.
  intros n Hw Hlen Hv Hi before after.
  destruct (lookup_lt_is_Some_2 (patterns st) (Z.to_nat i)) as [p Hp]; [lia|].
  assert (valid p = true) as Hvp by by eapply valid_lookup.
  destruct (valid_getPatternStyle p Hvp) as [s Hstyle].
  assert (applyPatternToElement p
          = Some {| background := s; transform_rotate := rotation_or_0 p |})
    as He by (unfold applyPatternToElement; by rewrite Hstyle).
  set (st' := set_patterns st (<[Z.to_nat i := rotated p]> (patterns st))).
  assert (after = (renderQuilt w st' t).1.2) as ->.
  { subst after. unfold rotatePattern, JS.index.
    destruct (Z.leb_spec 0 i); [|lia]. rewrite Hp.
    assert ((match rotation p with
             | Some r => if r =? 0 then 0 else r | None => 0 end)
            = rotation_or_0 p) as ->.
    { unfold rotation_or_0. destruct (rotation p) as [r|]; [|done]. simpl.
      by destruct (Z.eqb_spec r 0). }
    done. }
  assert (Z.of_nat (length (patterns st')) =
          GridConfig.rows (gridConfig st') * GridConfig.cols (gridConfig st'))
    as Hlen' by (simpl; rewrite length_insert; exact Hlen).
  assert (forallb valid (patterns st') = true) as Hv'
    by (apply valid_insert; [done|by rewrite valid_rotated]).
  assert (isPortrait w = true ∨
          (1 ≤ GridConfig.rows (gridConfig st) ∧ 1 ≤ GridConfig.cols (gridConfig st)))
    as Hgc by (by left).
  eexists. subst before. split; [|split].
  - rewrite (shown_element (isPortrait w) st Hlen Hgc w t i eq_refl Hv Hi).
    rewrite Hw. simpl. rewrite Hp. simpl. exact He.
  - rewrite (shown_element (isPortrait w) st' Hlen' Hgc w t i eq_refl Hv' Hi).
    rewrite Hw. simpl. rewrite list_lookup_insert_eq by lia. simpl.
    exact (applyPatternToElement_rotated p _ He).
  - intros j Hj Hji.
    rewrite (shown_element (isPortrait w) st' Hlen' Hgc w t j eq_refl Hv' Hj).
    rewrite (shown_element (isPortrait w) st Hlen Hgc w t j eq_refl Hv Hj).
    rewrite Hw. simpl. rewrite list_lookup_insert_ne by lia. done.
Qed.

Lemma rotatePattern_turns_clicked_square_witness :
  let st := (run (renderQuilt portrait_window started_session)).1 in
  transform_rotate <$>
    (element <$> shown (run (rotatePattern portrait_window 2 st)).2 2) = Some 90.
Proof.
  intros st.
  destruct (rotatePattern_turns_clicked_square portrait_window 2 st sample_tape)
    as (e & Hb & Ha & _);
    [reflexivity|reflexivity|reflexivity|vm_compute; split; congruence|].
  unfold run. rewrite Ha. vm_compute in Hb. injection Hb as <-. reflexivity.
Defined.

(** ** Export against the screen *)



(** ** Grid settings *)

(** X19: applying a grid of [r] rows and [c] columns chosen in the
    settings dialog leaves a session with that configuration and exactly
    [r * c] fresh valid patterns, whatever the grid was before; the
    library is kept, and the quilt is shown with [r * c] squares, in
    columns as the viewport asks: the smaller dimension on a portrait
    viewport, the larger on a landscape one. *)
Theorem applyGridSettings_new_grid (w : Window) (r c : Z) (st : State)
    (t : Tape) :
  1 ≤ r → 1 ≤ c →
  let res := (applyGridSettings w (setColumns c (setRows r st)) t).1 in
  gridConfig res.1 = GridConfig.mk r c ∧
  length (patterns res.1) = Z.to_nat (r * c) ∧
  Forall (λ p, valid p = true ∧ rotation p = Some 0) (patterns res.1) ∧
  library res.1 = library st ∧
  ∃ d, res.2 = Some d ∧ length (squares d) = Z.to_nat (r * c) ∧
       gridTemplateColumns d = (if isPortrait w then Z.min r c else Z.max r c).
Proof.
  intros Hr Hc res. subst res. unfold applyGridSettings, rand_bind.
  set (st0 := setColumns c (setRows r st)).
  destruct (initializeColors_spec st0 t) as (_ & _ & Hl1 & Hg1 & _ & Hv1).
  pose proof (initializeColors_fresh st0 t) as (_ & Hf1 & _).
  destruct (initializeColors st0 t) as [st1 t1]. simpl in *.
  destruct (renderQuilt_consistent w st1 t1 Hv1) as (Hg & Hl & Hrc & Hn & Hlen & Hv).
  destruct (renderQuilt_squares w st1 t1 Hv1) as (d & Hd & Hcols & Hsq & _).
  { right. rewrite Hg1. simpl. lia. }
  pose proof (renderQuilt_state w st1 t1) as Hst. simpl in Hst.
  rewrite Hg1 in *. simpl in Hn. rewrite Hn in *.
  split; [by rewrite Hg|]. split; [done|]. split.
  - rewrite Hst. case_bool_decide.
    + by destruct (updateOrientation_spec w st1) as (-> & _).
    + by pose proof (initializeColors_fresh (updateOrientation w st1) t1)
        as (_ & ? & _).
  - split; [by rewrite Hl|]. exists d. do 2 (split; [done|]).
    rewrite Hcols. injection Hrc as _ ->.
    destruct (updateOrientation_fits_viewport_aux w st1) as [_ ->].
    rewrite Hg1. simpl. by destruct (isPortrait w).
Qed.

Lemma applyGridSettings_new_grid_witness :
  let res := (applyGridSettings landscape_window
                (setColumns 3 (setRows 2 started_session)) sample_tape).1 in
  length (patterns res.1) = Z.to_nat (2 * 3) ∧
  gridConfig res.1 = GridConfig.mk 2 3.
Proof.
  intros res.
  destruct (applyGridSettings_new_grid landscape_window 2 3 started_session
              sample_tape) as (Hg & Hlen & _); [lia..|].
  split; [exact Hlen|exact Hg].
Defined.

(** ** Loading, when the library cannot be rendered *)

(** X20: a load is not atomic.  When the library of the snapshot holds a
    pattern whose style throws (a colour it needs is missing), the load
    ends with the error alert after the library was replaced: the
    patterns of the snapshot (valid, as many as the current grid has
    cells) are already in place, the library is the snapshot's, and the
    grid configuration of the snapshot is not applied. *)
Theorem loadQuilt_stops_at_bad_library (w : Window) (q : QuiltData)
    (l : list Pattern) (st : State) (t : Tape) :
  forallb valid (default [] (qd_patterns q)) = true →
  isPortrait w = true ∨
    (1 ≤ GridConfig.rows (gridConfig st) ∧ 1 ≤ GridConfig.cols (gridConfig st)) →
  qd_library q = Some l →
  Exists (λ p, getPatternStyle p = None) l →
  let r := (loadQuilt w (Some (document q)) st t).1 in
  r.2 = Some (error_loading TypeError) ∧
  library r.1 = l ∧
  gridConfig r.1 = gridConfig st ∧
  match qd_patterns q with
  | None => patterns r.1 = patterns st
  | Some ps =>
      Z.of_nat (length ps) =
        GridConfig.rows (gridConfig st) * GridConfig.cols (gridConfig st) →
      patterns r.1 = ps
  end.
Proof.
  intros Hps Hgc Hl Hbad r. subst r.
  apply mapM_None_2 in Hbad.
  unfold loadQuilt, onload, rand_bind, rand_ret, renderLibrary.
  destruct q as [[ps|] l' gc s]; simpl in *; subst l'.
  - destruct (renderQuilt_squares w (set_patterns st ps) t Hps Hgc)
      as (d & Hd & _).
    destruct (renderQuilt_grid w (set_patterns st ps) t) as (Hg & _).
    pose proof (renderQuilt_state w (set_patterns st ps) t) as Hst.
    destruct (renderQuilt w (set_patterns st ps) t) as [[st1 d1] t1].
    simpl in *. subst d1. rewrite bool_decide_eq_true_2 by eauto. simpl.
    rewrite Hbad. rewrite bool_decide_eq_false_2 by (by intros [? ?]). simpl.
    do 3 (split; [done|]). intros Hlen.
    rewrite Hst, bool_decide_eq_true_2 by done.
    by destruct (updateOrientation_spec w (set_patterns st ps)) as (-> & _).
  - rewrite Hbad. rewrite bool_decide_eq_false_2 by (by intros [? ?]). done.
Qed.

Lemma loadQuilt_stops_at_bad_library_witness :
  let bad := {| type := checkerboard; colors := ["#ff0000"]; rotation := Some 0 |} in
  let q := {| qd_patterns := None; qd_library := Some [bad];
              qd_gridConfig := Some (GridConfig.mk 2 3);
              savedAt := "2024-01-01T00:00:00.000Z" |} in
  let r := run (loadQuilt landscape_window (Some (document q)) started_session) in
  r.2 = Some (error_loading TypeError) ∧ library r.1 = [bad] ∧
  gridConfig r.1 = GridConfig.mk 6 8.
Proof.
  intros bad q r.
  destruct (loadQuilt_stops_at_bad_library landscape_window q [bad]
              started_session sample_tape) as (Ha & Hl & Hg & _);
    [reflexivity|right; vm_compute; split; congruence|reflexivity|
     constructor; reflexivity|].
  split; [exact Ha|]. split; [exact Hl|exact Hg].
Defined.

(** ** Drag image *)

(** X21: for solid, horizontal, vertical, checkerboard and quarter square
    patterns the drag image is drawn by the very calls of the export, at
    any size; so at the export size it fills the regions of the style. *)
Theorem drag_image_drawn_as_export (size : Q) (p : Pattern) :
  type p ∈ [solid; horizontal; vertical; checkerboard; quartersquare] →
  drawDragImage size p = drawPattern size p ∧
  (valid p = true →
   match getPatternStyle p ≫= style_regions,
         canvas_regions 100 (drawDragImage 100 p) with
   | Some s, Some r =>
       list_eqb painted_eqb
         ((λ '(g, c), (scale_region (100 / 100) g, c)) <$> s) r = true
   | _, _ => False
   end).
Proof.
  intros Hk. rewrite !elem_of_cons, elem_of_nil in Hk.
  destruct p as [k cs r]. simpl in Hk.
  assert (drawDragImage size (mkPattern k cs r) = drawPattern size (mkPattern k cs r))
    as Heq by (destruct Hk as [->|[->|[->|[->|[->|[]]]]]]; reflexivity).
  split; [done|]. intros Hv.
  assert (drawDragImage 100 (mkPattern k cs r) = drawPattern 100 (mkPattern k cs r))
    as -> by (destruct Hk as [->|[->|[->|[->|[->|[]]]]]]; reflexivity).
  assert (raster_agrees_with_style 100 (mkPattern k cs r) = true) as Hagree.
  { apply raster_agrees_with_style_exact; [done|simpl..];
      destruct Hk as [->|[->|[->|[->|[->|[]]]]]]; done. }
  unfold raster_agrees_with_style in Hagree.
  destruct (getPatternStyle _ ≫= style_regions); [|done].
  by destruct (canvas_regions 100 _).
Qed.

Lemma drag_image_drawn_as_export_witness :
  drawDragImage 50 {| type := checkerboard; colors := sample_picker; rotation := None |}
  = drawPattern 50 {| type := checkerboard; colors := sample_picker; rotation := None |}.
Proof.
  destruct (drag_image_drawn_as_export 50
              {| type := checkerboard; colors := sample_picker; rotation := None |})
    as [H _]; [|exact H].
  simpl. rewrite !elem_of_cons. tauto.
Defined.
